(** * opnsense_phpipam_sync: a shallow embedding and its properties

    The Python module [opnsense_phpipam_sync.py] reads DHCP leases and the ARP
    table of an OPNsense firewall, merges them into one mapping keyed by IP and
    reconciles that mapping with the address records of one phpIPAM subnet.

    The embedding keeps the dynamic typing of the source: payloads are JSON
    values, dictionaries are insertion-ordered association lists, a raised
    exception is the left summand of a result, and every HTTP call goes
    through one transport function that records the request. *)

From Stdlib Require Import List String Ascii ZArith Bool Lia.
Import ListNotations.
Local Open Scope string_scope.
Local Open Scope list_scope.
Local Open Scope Z_scope.

(** ** Python strings

    A [string] is read as a sequence of code points below 256. *)

Module PyStr.

(** [str.isspace] on one code point below 256: U+0009..U+000D,
    U+001C..U+001F, U+0020, U+0085 and U+00A0. *)
Definition isspace (c : ascii) : bool :=
  let n := nat_of_ascii c in
  ((9 <=? n) && (n <=? 13) || (28 <=? n) && (n <=? 32)
   || (n =? 133) || (n =? 160))%nat.

Fixpoint lstrip (s : string) : string :=
  match s with
  | EmptyString => EmptyString
  | String c s' => if isspace c then lstrip s' else s
  end.

Fixpoint rstrip (s : string) : string :=
  match s with
  | EmptyString => EmptyString
  | String c s' =>
      match rstrip s' with
      | EmptyString => if isspace c then EmptyString else String c EmptyString
      | r => String c r
      end
  end.

(** [s.strip()] *)
Definition strip (s : string) : string := rstrip (lstrip s).

(** [str.lower] on one code point below 256: A..Z and the Latin-1 capitals
    U+00C0..U+00DE except the multiplication sign U+00D7. *)
Definition lower_char (c : ascii) : ascii :=
  let n := nat_of_ascii c in
  if ((65 <=? n) && (n <=? 90)
      || (192 <=? n) && (n <=? 222) && negb (n =? 215))%nat
  then ascii_of_nat (n + 32) else c.

Fixpoint lower (s : string) : string :=
  match s with
  | EmptyString => EmptyString
  | String c s' => String (lower_char c) (lower s')
  end.

(** Truth value of a string: [bool(s)]. *)
Definition truthy (s : string) : bool :=
  match s with EmptyString => false | _ => true end.

End PyStr.

(** ** JSON values, as [response.json()] returns them

    Numbers are the integers: the module never computes with a number, and
    a float takes the same branches as an integer of the same truth value. *)

#[warnings="-register-all"]
Inductive json : Type :=
| JNull
| JBool (b : bool)
| JNum (n : Z)
| JStr (s : string)
| JArr (xs : list json)
| JObj (kvs : list (string * json)).

(** ** Exceptions and results *)

Inductive exn : Type :=
| EnvironmentError (msg : string)
| ValueError (msg : string)
| RuntimeError (msg : string)
| AttributeError
| TypeError
| KeyError (key : string)
| HTTPError (status : Z)
| JSONDecodeError
| RequestException (what : string).

Definition result (A : Type) : Type := (exn + A)%type.

Definition Ok {A} (a : A) : result A := inr a.
Definition Raise {A} (e : exn) : result A := inl e.

Definition rbind {A B} (r : result A) (k : A -> result B) : result B :=
  match r with
  | inl e => inl e
  | inr a => k a
  end.

Declare Scope result_scope.
Delimit Scope result_scope with result.
Notation "'let?' x ':=' r 'in' k" := (rbind r (fun x => k))
  (at level 10, x name, r at level 100, k at level 200) : result_scope.
Local Open Scope result_scope.

(** A [for] loop whose body may raise: the first exception ends the loop. *)
Fixpoint for_each {A S} (body : S -> A -> result S) (xs : list A) (s : S)
  : result S :=
  match xs with
  | [] => Ok s
  | x :: xs' => let? s' := body s x in for_each body xs' s'
  end.

(** ** Python dictionaries

    A [dict] keeps its keys in insertion order; assigning to a key that is
    present replaces the value in place, assigning to a new key appends. *)

Section Dict.
Context {K V : Type}.
Variable key_eqb : K -> K -> bool.

Definition dict : Type := list (K * V).

(** [d.get(k)] *)
Fixpoint dict_get (k : K) (d : dict) : option V :=
  match d with
  | [] => None
  | (k', v) :: d' => if key_eqb k' k then Some v else dict_get k d'
  end.

(** [d[k] = v] *)
Fixpoint dict_set (k : K) (v : V) (d : dict) : dict :=
  match d with
  | [] => [(k, v)]
  | (k', v') :: d' =>
      if key_eqb k' k then (k', v) :: d' else (k', v') :: dict_set k v d'
  end.

(** [k in d] *)
Definition dict_mem (k : K) (d : dict) : bool :=
  match dict_get k d with Some _ => true | None => false end.

Definition dict_keys (d : dict) : list K := map fst d.
End Dict.

Arguments dict : clear implicits.

(** ** Dynamic operations on JSON values *)

Module Py.

(** [bool(v)] *)
Definition truthy (v : json) : bool :=
  match v with
  | JNull => false
  | JBool b => b
  | JNum n => negb (n =? 0)
  | JStr s => PyStr.truthy s
  | JArr xs => match xs with [] => false | _ => true end
  | JObj kvs => match kvs with [] => false | _ => true end
  end.

(** [v.get(key)]: only a dict has the method; [None] stands for a key that is
    not there. *)
Definition get (v : json) (key : string) : result (option json) :=
  match v with
  | JObj kvs => Ok (dict_get String.eqb key kvs)
  | _ => Raise AttributeError
  end.

(** [v[key]] on a dict *)
Definition item (v : json) (key : string) : result json :=
  match v with
  | JObj kvs =>
      match dict_get String.eqb key kvs with
      | Some x => Ok x
      | None => Raise (KeyError key)
      end
  | _ => Raise TypeError
  end.

(** [x or ""] where [x] is the outcome of a [.get]; a missing key reads as
    Python's [None]. *)
Definition or_empty (x : option json) : json :=
  match x with
  | Some v => if truthy v then v else JStr ""
  | None => JStr ""
  end.

(** [v.strip()]: only a str has the method. *)
Definition strip (v : json) : result string :=
  match v with
  | JStr s => Ok (PyStr.strip s)
  | _ => Raise AttributeError
  end.

(** [(entry.get(key) or "").strip()] *)
Definition get_stripped (entry : json) (key : string) : result string :=
  let? x := get entry key in strip (or_empty x).

(** [x != s] where [s] is a str and [x] the outcome of a [.get]: no JSON
    value other than the same str compares equal to a str. *)
Definition ne_str (x : option json) (s : string) : bool :=
  match x with
  | Some (JStr t) => negb (String.eqb t s)
  | _ => true
  end.

(** Equality of two values used as dictionary keys.  Among the hashable JSON
    values a str equals only the same str, and [True], [False] equal the
    numbers 1 and 0. *)
Definition key_eqb (a b : json) : bool :=
  match a, b with
  | JStr s, JStr t => String.eqb s t
  | JNum n, JNum m => n =? m
  | JBool x, JBool y => Bool.eqb x y
  | JBool x, JNum m => (if x then 1 else 0) =? m
  | JNum n, JBool y => n =? (if y then 1 else 0)
  | JNull, JNull => true
  | _, _ => false
  end.

(** Lists and dicts cannot be dictionary keys. *)
Definition hashable (v : json) : bool :=
  match v with
  | JArr _ | JObj _ => false
  | _ => true
  end.

(** The str of length one for each code point of [s]. *)
Fixpoint chars (s : string) : list json :=
  match s with
  | EmptyString => []
  | String c s' => JStr (String c EmptyString) :: chars s'
  end.

(** [for x in v]: a list yields its items, a dict its keys, a str its
    characters; nothing else is iterable. *)
Definition iter (v : json) : result (list json) :=
  match v with
  | JArr xs => Ok xs
  | JObj kvs => Ok (map (fun kv => JStr (fst kv)) kvs)
  | JStr s => Ok (chars s)
  | _ => Raise TypeError
  end.

End Py.

(** ** The host record merger *)

(** The dict literal [{"ip": ip, "mac": mac, "hostname": hostname}] that
    [merge_sources] builds: three str values under three fixed keys. *)
Record host_info : Type := HostInfo {
  hi_ip : string;
  hi_mac : string;
  hi_hostname : string
}.

Definition hosts_map : Type := dict string host_info.

(** Body of [for entry in arp_entries]. *)
Definition merge_arp_entry (hosts : hosts_map) (entry : json)
  : result hosts_map :=
  let? ip := Py.get_stripped entry "ip" in
  let? mac := Py.get_stripped entry "mac" in
  if PyStr.truthy ip
  then Ok (dict_set String.eqb ip (HostInfo ip mac "") hosts)
  else Ok hosts.

(** Body of [for lease in leases]. *)
Definition merge_lease (hosts : hosts_map) (lease : json)
  : result hosts_map :=
  let? ip := Py.get_stripped lease "address" in
  let? mac := Py.get_stripped lease "mac" in
  let? hostname := Py.get_stripped lease "hostname" in
  if PyStr.truthy ip
  then Ok (dict_set String.eqb ip (HostInfo ip mac hostname) hosts)
  else Ok hosts.

Definition merge_sources (leases arp_entries : json) : result hosts_map :=
  let? entries := Py.iter arp_entries in
  let? hosts := for_each merge_arp_entry entries [] in
  let? rows := Py.iter leases in
  for_each merge_lease rows hosts.

(** ** Configuration *)

(** [bool | str]: the TLS verification switch or the path of a CA bundle. *)
Inductive verify : Type :=
| VerifyBool (b : bool)
| VerifyPath (path : string).

(** The dict [load_config] returns.  [sync] reads two of its keys with
    [config.get(key, default)], so those may be absent. *)
Record config : Type := Config {
  opnsense_host : string;
  opnsense_key : string;
  opnsense_secret : string;
  opnsense_verify_ssl : option verify;
  phpipam_host : string;
  phpipam_scheme : option string;
  phpipam_app_id : string;
  phpipam_app_code : string;
  phpipam_subnet_id : string
}.

(** What [load_config] reads from the process: [os.environ] and
    [os.path.isfile]. *)
Record environment : Type := Environment {
  environ : string -> option string;
  isfile : string -> bool
}.

(** [os.environ.get(name, default)] *)
Definition environ_get (env : environment) (name default : string) : string :=
  match environ env name with
  | Some v => v
  | None => default
  end.

Definition get_env (env : environment) (name : string) : result string :=
  let value := PyStr.strip (environ_get env name "") in
  if negb (PyStr.truthy value)
  then Raise (EnvironmentError
                ("Required environment variable '" ++ name
                 ++ "' is not set.")%string)
  else Ok value.

Definition str_in (s : string) (l : list string) : bool :=
  existsb (String.eqb s) l.

Definition load_config (env : environment) : result config :=
  let verify_ssl_raw :=
    PyStr.lower (PyStr.strip (environ_get env "OPNSENSE_VERIFY_SSL" "true")) in
  let verify_ssl := negb (str_in verify_ssl_raw ["false"; "0"; "no"]) in
  let verify_ssl :=
    if verify_ssl && isfile env verify_ssl_raw
    then VerifyPath verify_ssl_raw else VerifyBool verify_ssl in
  let phpipam_scheme :=
    PyStr.lower (PyStr.strip (environ_get env "PHPIPAM_SCHEME" "https")) in
  if negb (str_in phpipam_scheme ["http"; "https"])
  then Raise (ValueError "PHPIPAM_SCHEME must be 'http' or 'https'.")
  else
    let? opnsense_host := get_env env "OPNSENSE_HOST" in
    let? opnsense_key := get_env env "OPNSENSE_KEY" in
    let? opnsense_secret := get_env env "OPNSENSE_SECRET" in
    let? phpipam_host := get_env env "PHPIPAM_HOST" in
    let? phpipam_app_id := get_env env "PHPIPAM_APP_ID" in
    let? phpipam_app_code := get_env env "PHPIPAM_APP_CODE" in
    let? phpipam_subnet_id := get_env env "PHPIPAM_SUBNET_ID" in
    Ok (Config opnsense_host opnsense_key opnsense_secret (Some verify_ssl)
               phpipam_host (Some phpipam_scheme) phpipam_app_id
               phpipam_app_code phpipam_subnet_id).

(** ** HTTP transport *)

Inductive http_method : Type := GET | POST | PUT.

(** The URLs the module formats. *)
Inductive endpoint : Type :=
| LeasesUrl (host : string)
    (* https://{host}/api/dhcpv4/leases/searchLease *)
| ArpUrl (host : string)
    (* https://{host}/api/diagnostics/interface/getArp *)
| UserUrl (scheme host app_id : string)
    (* {scheme}://{host}/api/{app_id}/user/ *)
| SubnetAddressesUrl (scheme host app_id subnet_id : string)
    (* {scheme}://{host}/api/{app_id}/subnets/{subnet_id}/addresses/ *)
| AddressesUrl (scheme host app_id : string)
    (* {scheme}://{host}/api/{app_id}/addresses/ *)
| AddressUrl (scheme host app_id : string) (address_id : json).
    (* {scheme}://{host}/api/{app_id}/addresses/{address_id}/ *)

(** One call of [session.get], [session.post] or [session.put]: the URL, the
    basic-auth pair, the [phpipam-token] header, the [json=] payload and the
    [verify=] argument. *)
Record request : Type := Request {
  req_method : http_method;
  req_url : endpoint;
  req_auth : option (string * string);
  req_token : option json;
  req_json : option (list (string * json));
  req_verify : option verify
}.

(** [body] is [None] when the body does not parse as JSON. *)
Record response : Type := Response {
  status_code : Z;
  body : option json
}.

(** [response.raise_for_status()] *)
Definition raise_for_status (r : response) : result unit :=
  if (400 <=? status_code r) && (status_code r <? 600)
  then Raise (HTTPError (status_code r)) else Ok tt.

(** [response.json()] *)
Definition response_json (r : response) : result json :=
  match body r with
  | Some v => Ok v
  | None => Raise JSONDecodeError
  end.

(** Counts kept in the [summary] dict. *)
Record summary : Type := Summary {
  created : Z;
  updated : Z;
  skipped : Z
}.

Definition existing_map : Type := dict json json.

Section Transport.

(** The network: what the session answers to a request, given the requests
    sent before it.  The session raises on a connection failure or a
    timeout and returns a response otherwise. *)
Variable net : list request -> request -> result response.

(** A computation that sends requests: it maps the requests sent so far to
    an outcome and the requests sent after it. *)
Definition M (A : Type) : Type := list request -> result A * list request.

Definition ret {A} (a : A) : M A := fun log => (Ok a, log).

Definition bind {A B} (m : M A) (k : A -> M B) : M B :=
  fun log =>
    match m log with
    | (inl e, log') => (inl e, log')
    | (inr a, log') => k a log'
    end.

Definition lift {A} (r : result A) : M A := fun log => (r, log).

Definition send (r : request) : M response :=
  fun log => (net log r, log ++ [r]).

Notation "'do' x '<-' m ';' k" := (bind m (fun x => k))
  (at level 10, x name, m at level 100, k at level 200).
Notation "m ';;' k" := (bind m (fun _ => k))
  (at level 100, k at level 200, right associativity, only parsing).

Definition fetch_dhcp_leases (host key secret : string) (v : verify)
  : M json :=
  do response <- send (Request GET (LeasesUrl host) (Some (key, secret))
                               None None (Some v));
  lift (raise_for_status response) ;;
  do data <- lift (response_json response);
  do rows <- lift (Py.get data "rows");
  ret (match rows with Some x => x | None => JArr [] end).

Definition fetch_arp_table (host key secret : string) (v : verify)
  : M json :=
  do response <- send (Request GET (ArpUrl host) (Some (key, secret))
                               None None (Some v));
  lift (raise_for_status response) ;;
  do data <- lift (response_json response);
  ret (match data with JArr xs => JArr xs | _ => JArr [] end).

Definition phpipam_authenticate (host app_id app_code scheme : string)
  : M json :=
  do response <- send (Request POST (UserUrl scheme host app_id)
                               (Some (app_id, app_code)) None None None);
  lift (raise_for_status response) ;;
  do data <- lift (response_json response);
  do d <- lift (Py.get data "data");
  do token <- lift (Py.get (match d with Some x => x | None => JObj [] end)
                           "token");
  match token with
  | Some t =>
      if Py.truthy t then ret t
      else lift (Raise (RuntimeError
             "phpIPAM authentication failed: no token in response."))
  | None =>
      lift (Raise (RuntimeError
             "phpIPAM authentication failed: no token in response."))
  end.

(** One round of the comprehension
    [{addr["ip"]: addr for addr in addresses if addr.get("ip")}]. *)
Definition index_address (acc : existing_map) (addr : json)
  : result existing_map :=
  let? ip := Py.get addr "ip" in
  match ip with
  | Some v =>
      if Py.truthy v then
        let? key := Py.item addr "ip" in
        if Py.hashable key then Ok (dict_set Py.key_eqb key addr acc)
        else Raise TypeError
      else Ok acc
  | None => Ok acc
  end.

(** What [get_subnet_addresses] does with the response it got. *)
Definition addresses_of_response (response : response)
  : result existing_map :=
  if status_code response =? 404 then Ok []
  else
    let? _ := raise_for_status response in
    let? data := response_json response in
    let? d := Py.get data "data" in
    let addresses :=
      match d with
      | Some x => if Py.truthy x then x else JArr []
      | None => JArr []
      end in
    let? items := Py.iter addresses in
    for_each index_address items [].

Definition get_subnet_addresses (host app_id subnet_id : string)
    (token : json) (scheme : string) : M existing_map :=
  do response <- send (Request GET
                         (SubnetAddressesUrl scheme host app_id subnet_id)
                         None (Some token) None None);
  lift (addresses_of_response response).

Definition create_request (host app_id subnet_id : string)
    (host_info : host_info) (token : json) (scheme : string) : request :=
  Request POST (AddressesUrl scheme host app_id) None (Some token)
          (Some [("subnetId", JStr subnet_id);
                 ("ip", JStr (hi_ip host_info));
                 ("mac", JStr (hi_mac host_info));
                 ("hostname", JStr (hi_hostname host_info))])
          None.

Definition create_address (host app_id subnet_id : string)
    (host_info : host_info) (token : json) (scheme : string) : M unit :=
  do response <- send (create_request host app_id subnet_id host_info
                                      token scheme);
  lift (raise_for_status response).

Definition update_request (host app_id : string) (address_id : json)
    (host_info : host_info) (token : json) (scheme : string) : request :=
  Request PUT (AddressUrl scheme host app_id address_id) None (Some token)
          (Some [("mac", JStr (hi_mac host_info));
                 ("hostname", JStr (hi_hostname host_info))])
          None.

Definition update_address (host app_id : string) (address_id : json)
    (host_info : host_info) (token : json) (scheme : string) : M unit :=
  do response <- send (update_request host app_id address_id host_info
                                      token scheme);
  lift (raise_for_status response).

(** [current.get("mac") != host_info["mac"] or
     current.get("hostname") != host_info["hostname"]] *)
Definition differs (current : json) (host_info : host_info) : result bool :=
  let? mac := Py.get current "mac" in
  if Py.ne_str mac (hi_mac host_info) then Ok true
  else
    let? hostname := Py.get current "hostname" in
    Ok (Py.ne_str hostname (hi_hostname host_info)).

(** Body of [for ip, host_info in hosts.items()]. *)
Definition sync_host (cfg : config) (scheme : string) (token : json)
    (existing : existing_map) (s : summary) (item : string * host_info)
  : M summary :=
  let (ip, host_info) := item in
  match dict_get Py.key_eqb (JStr ip) existing with
  | None =>
      create_address (phpipam_host cfg) (phpipam_app_id cfg)
                     (phpipam_subnet_id cfg) host_info token scheme ;;
      ret (Summary (created s + 1) (updated s) (skipped s))
  | Some current =>
      do changed <- lift (differs current host_info);
      if changed : bool then
        do address_id <- lift (Py.item current "id");
        update_address (phpipam_host cfg) (phpipam_app_id cfg) address_id
                       host_info token scheme ;;
        ret (Summary (created s) (updated s + 1) (skipped s))
      else ret (Summary (created s) (updated s) (skipped s + 1))
  end.

Fixpoint sync_hosts (cfg : config) (scheme : string) (token : json)
    (existing : existing_map) (items : list (string * host_info))
    (s : summary) : M summary :=
  match items with
  | [] => ret s
  | item :: rest =>
      do s' <- sync_host cfg scheme token existing s item;
      sync_hosts cfg scheme token existing rest s'
  end.

Definition sync (cfg : config) : M summary :=
  let summary := Summary 0 0 0 in
  let verify_ssl :=
    match opnsense_verify_ssl cfg with
    | Some v => v
    | None => VerifyBool true
    end in
  do leases <- fetch_dhcp_leases (opnsense_host cfg) (opnsense_key cfg)
                                 (opnsense_secret cfg) verify_ssl;
  do arp <- fetch_arp_table (opnsense_host cfg) (opnsense_key cfg)
                            (opnsense_secret cfg) verify_ssl;
  do hosts <- lift (merge_sources leases arp);
  let scheme :=
    match phpipam_scheme cfg with
    | Some s => s
    | None => "https"
    end in
  do token <- phpipam_authenticate (phpipam_host cfg) (phpipam_app_id cfg)
                                   (phpipam_app_code cfg) scheme;
  do existing <- get_subnet_addresses (phpipam_host cfg)
                   (phpipam_app_id cfg) (phpipam_subnet_id cfg) token scheme;
  sync_hosts cfg scheme token existing hosts summary.

(** How the process ends: [sys.exit(code)] or normal return (status 0), or
    an exception nobody caught, which the interpreter reports with a
    traceback. *)
Inductive termination : Type :=
| Exit (code : Z)
| Uncaught (e : exn).

Record process : Type := Process {
  proc_end : termination;
  proc_errors : list string;   (* what [logger.error] was given *)
  proc_requests : list request
}.

Definition main (env : environment) : process :=
  match load_config env with
  | inl (EnvironmentError msg) => Process (Exit 1) [msg] []
  | inl e => Process (Uncaught e) [] []
  | inr cfg =>
      match sync cfg [] with
      | (inl e, log) => Process (Uncaught e) [] log
      | (inr _, log) => Process (Exit 0) [] log
      end
  end.

End Transport.

(** ** Vocabulary of the specification *)

(** *** Observations

    A host observation is a JSON object whose fields, where present, are
    strings or null.  Its normalised field is the trimmed string, and the
    empty string when the field is missing or null. *)

Definition norm_field (x : option json) : string :=
  match x with
  | Some (JStr s) => PyStr.strip s
  | _ => ""
  end.

Definition obs_field (e : json) (key : string) : string :=
  match e with
  | JObj kvs => norm_field (dict_get String.eqb key kvs)
  | _ => ""
  end.

Definition field_ok (x : option json) : bool :=
  match x with
  | None | Some JNull | Some (JStr _) => true
  | _ => false
  end.

Definition is_observation (keys : list string) (e : json) : bool :=
  match e with
  | JObj kvs => forallb (fun k => field_ok (dict_get String.eqb k kvs)) keys
  | _ => false
  end.

Definition is_lease : json -> bool :=
  is_observation ["address"; "mac"; "hostname"].

Definition is_arp_entry : json -> bool := is_observation ["ip"; "mac"].

(** An observation whose ip is missing, null, or empty once trimmed. *)
Definition blank_lease (e : json) : bool :=
  is_lease e && negb (PyStr.truthy (obs_field e "address")).

Definition blank_arp_entry (e : json) : bool :=
  is_arp_entry e && negb (PyStr.truthy (obs_field e "ip")).

(** The canonical host an observation stands for. *)
Definition lease_host (e : json) : host_info :=
  HostInfo (obs_field e "address") (obs_field e "mac")
           (obs_field e "hostname").

Definition arp_host (e : json) : host_info :=
  HostInfo (obs_field e "ip") (obs_field e "mac") "".

(** The last observation of a list that carries the given ip. *)
Definition last_with_ip (ip : string) (hs : list host_info)
  : option host_info :=
  find (fun h => String.eqb (hi_ip h) ip) (rev hs).

(** What one loop round of the merger does to the mapping, on a typed
    observation: an empty ip is passed over, any other ip is (re)assigned. *)
Definition insert_host (d : hosts_map) (h : host_info) : hosts_map :=
  if PyStr.truthy (hi_ip h) then dict_set String.eqb (hi_ip h) h d else d.

(** *** Decisions of the reconciler, in the words of the specification *)

Inductive action : Type :=
| Create
| Update (current : json)
| Skip.

(** A field of a remote address record. *)
Definition record_field (r : json) (key : string) : option json :=
  match r with
  | JObj kvs => dict_get String.eqb key kvs
  | _ => None
  end.

(** The field holds exactly the string [s]. *)
Definition same_str (x : option json) (s : string) : bool :=
  match x with
  | Some (JStr t) => String.eqb t s
  | _ => false
  end.

(** No existing record: create.  A record whose mac or hostname is not the
    host's string: update.  Otherwise: skip. *)
Definition spec_action (existing : existing_map) (item : string * host_info)
  : action :=
  match dict_get Py.key_eqb (JStr (fst item)) existing with
  | None => Create
  | Some current =>
      if same_str (record_field current "mac") (hi_mac (snd item))
         && same_str (record_field current "hostname")
                     (hi_hostname (snd item))
      then Skip else Update current
  end.

(** The write each decision stands for: a POST to the address collection
    with subnet identifier, ip, mac and hostname; a PUT to the record's id
    with mac and hostname only; nothing. *)
Definition spec_requests (cfg : config) (scheme : string) (token : json)
    (h : host_info) (a : action) : list request :=
  match a with
  | Create =>
      [Request POST
         (AddressesUrl scheme (phpipam_host cfg) (phpipam_app_id cfg))
         None (Some token)
         (Some [("subnetId", JStr (phpipam_subnet_id cfg));
                ("ip", JStr (hi_ip h));
                ("mac", JStr (hi_mac h));
                ("hostname", JStr (hi_hostname h))])
         None]
  | Update current =>
      match record_field current "id" with
      | Some address_id =>
          [Request PUT
             (AddressUrl scheme (phpipam_host cfg) (phpipam_app_id cfg)
                         address_id)
             None (Some token)
             (Some [("mac", JStr (hi_mac h));
                    ("hostname", JStr (hi_hostname h))])
             None]
      | None => []
      end
  | Skip => []
  end.

(** The counter each decision increments. *)
Definition bump (s : summary) (a : action) : summary :=
  match a with
  | Create => Summary (created s + 1) (updated s) (skipped s)
  | Update _ => Summary (created s) (updated s + 1) (skipped s)
  | Skip => Summary (created s) (updated s) (skipped s + 1)
  end.

(** A remote address record whose ip is missing, null or empty. *)
Definition no_ip (r : json) : bool :=
  match r with
  | JObj kvs =>
      match dict_get String.eqb "ip" kvs with
      | None | Some JNull | Some (JStr EmptyString) => true
      | _ => false
      end
  | _ => false
  end.

(** The request [get_subnet_addresses] sends. *)
Definition inventory_request (cfg : config) (scheme : string) (token : json)
  : request :=
  Request GET
          (SubnetAddressesUrl scheme (phpipam_host cfg) (phpipam_app_id cfg)
                              (phpipam_subnet_id cfg))
          None (Some token) None None.

(** A remote address record carries an [id]. *)
Definition is_record (r : json) : bool :=
  match record_field r "id" with
  | Some _ => true
  | None => false
  end.

(** Requests that create or update an address. *)
Definition is_write (r : request) : bool :=
  match req_url r with
  | AddressesUrl _ _ _ | AddressUrl _ _ _ _ => true
  | _ => false
  end.

(** The IPAM side answers every write with a status that
    [raise_for_status] lets through. *)
Definition accepts_writes (net : list request -> request -> result response)
  : Prop :=
  forall log r, is_write r = true ->
    exists resp, net log r = Ok resp /\ raise_for_status resp = Ok tt.

(** *** The IPAM side of a write

    phpIPAM itself is outside the repository.  The idempotence claim speaks
    of a remote inventory that exactly reflects the writes of a run; the
    definitions below say what that inventory is, on the mapping the
    fetcher builds. *)

(** Structural equality of JSON values. *)
Fixpoint json_eqb (a b : json) : bool :=
  match a, b with
  | JNull, JNull => true
  | JBool x, JBool y => Bool.eqb x y
  | JNum n, JNum m => n =? m
  | JStr s, JStr t => String.eqb s t
  | JArr xs, JArr ys =>
      (fix go (l l' : list json) : bool :=
         match l, l' with
         | [], [] => true
         | x :: r, y :: r' => json_eqb x y && go r r'
         | _, _ => false
         end) xs ys
  | JObj kvs, JObj kvs' =>
      (fix go (l l' : list (string * json)) : bool :=
         match l, l' with
         | [], [] => true
         | (k, x) :: r, (k', y) :: r' =>
             String.eqb k k' && json_eqb x y && go r r'
         | _, _ => false
         end) kvs kvs'
  | _, _ => false
  end.

(** The record is the one with identifier [address_id]. *)
Definition has_id (address_id : json) (r : json) : bool :=
  match record_field r "id" with
  | Some i => json_eqb i address_id
  | None => false
  end.

(** No two entries of the inventory share an identifier. *)
Fixpoint unique_ids (d : existing_map) : bool :=
  match d with
  | [] => true
  | (_, r) :: d' =>
      match record_field r "id" with
      | Some a => forallb (fun kv => negb (has_id a (snd kv))) d'
      | None => true
      end && unique_ids d'
  end.

(** The identifiers the server gives to the records it creates are not
    those of records it already holds. *)
Definition fresh_ids (new_id : request -> json) (writes : list request)
    (d : existing_map) : bool :=
  forallb (fun q => forallb (fun kv => negb (has_id (new_id q) (snd kv))) d)
          writes.

(** Overwrite the fields of a record with those of a payload. *)
Definition set_fields (payload : list (string * json)) (r : json) : json :=
  match r with
  | JObj kvs =>
      JObj (fold_left (fun acc kv => dict_set String.eqb (fst kv) (snd kv) acc)
                      payload kvs)
  | _ => r
  end.

(** The inventory after one write: a POST to the address collection adds,
    under the ip of its payload, a record made of the payload and an
    identifier of the server's choosing; a PUT to an address overwrites the
    payload's fields in the record with that identifier; any other request
    leaves the inventory alone. *)
Definition apply_write (new_id : request -> json) (inv : existing_map)
    (q : request) : existing_map :=
  match req_method q, req_url q, req_json q with
  | POST, AddressesUrl _ _ _, Some payload =>
      match dict_get String.eqb "ip" payload with
      | Some ip =>
          dict_set Py.key_eqb ip (JObj (("id", new_id q) :: payload)) inv
      | None => inv
      end
  | PUT, AddressUrl _ _ _ address_id, Some payload =>
      map (fun kv =>
             (fst kv,
              if has_id address_id (snd kv)
              then set_fields payload (snd kv) else snd kv))
          inv
  | _, _, _ => inv
  end.

(** A canonical host mapping: one entry per IP, each stored under its own
    ip. *)
Definition hosts_wf (d : hosts_map) : Prop :=
  NoDup (dict_keys d) /\ forall ip h, In (ip, h) d -> hi_ip h = ip.

(** The inventory holds, under [ip], a record with the host's mac and
    hostname whose identifier is not that of a record [existing] holds under
    another ip. *)
Definition matched (existing inv : existing_map) (ip : string)
    (h : host_info) : Prop :=
  exists r,
    dict_get Py.key_eqb (JStr ip) inv = Some r
    /\ record_field r "mac" = Some (JStr (hi_mac h))
    /\ record_field r "hostname" = Some (JStr (hi_hostname h))
    /\ forall ip' r' a,
         ip' <> ip ->
         dict_get Py.key_eqb (JStr ip') existing = Some r' ->
         record_field r' "id" = Some a ->
         has_id a r = false.

(** The inventory once the writes for the hosts [done] are applied: the
    entries under their IPs are matched, every other IP reads as before. *)
Definition reflects (existing : existing_map)
    (done : list (string * host_info)) (inv : existing_map) : Prop :=
  (forall ip, ~ In ip (map fst done) ->
     dict_get Py.key_eqb (JStr ip) inv
     = dict_get Py.key_eqb (JStr ip) existing)
  /\ forall ip h, In (ip, h) done -> matched existing inv ip h.

(** The writes a pass against [existing] sends for one host. *)
Definition writes_for (cfg : config) (scheme : string) (token : json)
    (existing : existing_map) (item : string * host_info) : list request :=
  spec_requests cfg scheme token (snd item) (spec_action existing item).

(** *** Authentication and configuration *)

(** The request [phpipam_authenticate] sends. *)
Definition auth_request (host app_id app_code scheme : string) : request :=
  Request POST (UserUrl scheme host app_id) (Some (app_id, app_code))
          None None None.

(** The authentication failure. *)
Definition no_token : exn :=
  RuntimeError "phpIPAM authentication failed: no token in response.".

(** The URL scheme of the environment is one of the two allowed. *)
Definition scheme_allowed (env : environment) : bool :=
  str_in (PyStr.lower (PyStr.strip (environ_get env "PHPIPAM_SCHEME" "https")))
         ["http"; "https"].

(** The variables [load_config] reads through [get_env]. *)
Definition required_names : list string :=
  ["OPNSENSE_HOST"; "OPNSENSE_KEY"; "OPNSENSE_SECRET"; "PHPIPAM_HOST";
   "PHPIPAM_APP_ID"; "PHPIPAM_APP_CODE"; "PHPIPAM_SUBNET_ID"].

(** *** Inputs on which the code departs from the specification *)

(** An authentication answer with status 200 and body [{"data": null}]. *)
Definition null_data_response : response :=
  Response 200 (Some (JObj [("data", JNull)])).

Definition net_null_data : list request -> request -> result response :=
  fun _ _ => Ok null_data_response.

(** [os.environ] read from a list of assignments; no file exists. *)
Definition environment_of (vars : list (string * string)) : environment :=
  Environment (fun name => dict_get String.eqb name vars) (fun _ => false).

Definition required_vars : list (string * string) :=
  [("OPNSENSE_HOST", "fw.example.com");
   ("OPNSENSE_KEY", "key123");
   ("OPNSENSE_SECRET", "secret123");
   ("PHPIPAM_HOST", "ipam.example.com");
   ("PHPIPAM_APP_ID", "sync_agent");
   ("PHPIPAM_APP_CODE", "app_code_abc");
   ("PHPIPAM_SUBNET_ID", "3")].

(** Every required variable set, and a URL scheme that is not allowed. *)
Definition env_ftp_scheme : environment :=
  environment_of (("PHPIPAM_SCHEME", "ftp") :: required_vars).

(** Nothing set but a URL scheme that is not allowed. *)
Definition env_only_ftp_scheme : environment :=
  environment_of [("PHPIPAM_SCHEME", "ftp")].

(** Every required variable set but [OPNSENSE_KEY]. *)
Definition env_missing_key : environment :=
  environment_of
    (filter (fun kv => negb (String.eqb (fst kv) "OPNSENSE_KEY"))
            required_vars).

(** *** Further vocabulary *)

(** A string with something in it and no whitespace around it. *)
Definition trimmed_nonblank (s : string) : Prop :=
  s <> "" /\ PyStr.strip s = s.

(** The message [get_env] raises for a variable. *)
Definition not_set (name : string) : exn :=
  EnvironmentError
    ("Required environment variable '" ++ name ++ "' is not set.")%string.

(** The scheme error of [load_config]. *)
Definition bad_scheme : exn :=
  ValueError "PHPIPAM_SCHEME must be 'http' or 'https'.".

(** The [OPNSENSE_VERIFY_SSL] setting as [load_config] reads it. *)
Definition verify_raw (env : environment) : string :=
  PyStr.lower (PyStr.strip (environ_get env "OPNSENSE_VERIFY_SSL" "true")).

(** The requests the two firewall helpers send. *)
Definition leases_request (host key secret : string) (v : verify) : request :=
  Request GET (LeasesUrl host) (Some (key, secret)) None None (Some v).

Definition arp_request (host key secret : string) (v : verify) : request :=
  Request GET (ArpUrl host) (Some (key, secret)) None None (Some v).

(** A status [raise_for_status] raises on. *)
Definition is_error_status (status : Z) : bool :=
  (400 <=? status) && (status <? 600).

(** A field [merge_sources] can read: missing, a str, or anything falsy
    ([x or ""] replaces a falsy value before [.strip()] is called). *)
Definition field_tolerated (x : option json) : bool :=
  match x with
  | None => true
  | Some (JStr _) => true
  | Some v => negb (Py.truthy v)
  end.

(** An entry all of whose fields under [keys] can be read. *)
Definition mergeable (keys : list string) (e : json) : bool :=
  match e with
  | JObj kvs =>
      forallb (fun k => field_tolerated (dict_get String.eqb k kvs)) keys
  | _ => false
  end.

(** A canonical host as the merger leaves it: stored under its own ip,
    which is not blank, with all three fields trimmed. *)
Definition canonical (entry : string * host_info) : Prop :=
  hi_ip (snd entry) = fst entry
  /\ trimmed_nonblank (fst entry)
  /\ PyStr.strip (hi_mac (snd entry)) = hi_mac (snd entry)
  /\ PyStr.strip (hi_hostname (snd entry)) = hi_hostname (snd entry).

(** The last record of an inventory answer whose ip is the str [ip]. *)
Definition last_record (ip : string) (records : list json) : option json :=
  find (fun r => same_str (record_field r "ip") ip) (rev records).

(** The two settings [sync] reads with a default. *)
Definition cfg_verify (cfg : config) : verify :=
  match opnsense_verify_ssl cfg with
  | Some v => v
  | None => VerifyBool true
  end.

Definition cfg_scheme (cfg : config) : string :=
  match phpipam_scheme cfg with
  | Some s => s
  | None => "https"
  end.


(** *** Sample data, after the test suite *)

Definition sample_config : config :=
  Config "fw.example.com" "key" "secret" None
         "ipam.example.com" None "sync_agent" "code" "3".

Definition sample_token : json := JStr "tok".

Definition sample_leases : list json :=
  [JObj [("address", JStr "10.0.0.50"); ("mac", JStr "bb:bb:bb:bb:bb:bb");
         ("hostname", JStr "renamed")];
   JObj [("address", JStr " 10.0.0.1 "); ("mac", JStr "aa:bb:cc:dd:ee:ff");
         ("hostname", JStr "myhost")];
   JObj [("address", JStr ""); ("mac", JStr "aa:bb:cc:dd:ee:ff");
         ("hostname", JStr "noip")]].

Definition sample_arp : list json :=
  [JObj [("ip", JStr "10.0.0.1"); ("mac", JStr "11:22:33:44:55:66")];
   JObj [("ip", JStr "10.0.0.2"); ("mac", JStr "de:ad:be:ef:00:01")];
   JObj [("ip", JNull); ("mac", JStr "11:22:33:44:55:66")]].

Definition sample_hosts : hosts_map :=
  [("10.0.0.1", HostInfo "10.0.0.1" "aa:bb:cc:dd:ee:ff" "myhost");
   ("10.0.0.2", HostInfo "10.0.0.2" "de:ad:be:ef:00:01" "");
   ("10.0.0.50", HostInfo "10.0.0.50" "bb:bb:bb:bb:bb:bb" "renamed")].

Definition sample_record (id ip mac hostname : string) : json :=
  JObj [("id", JStr id); ("ip", JStr ip); ("mac", JStr mac);
        ("hostname", JStr hostname)].

(** One record to update, one to leave alone; 10.0.0.1 is not there yet. *)
Definition sample_existing : existing_map :=
  [(JStr "10.0.0.50",
    sample_record "5" "10.0.0.50" "aa:aa:aa:aa:aa:aa" "oldname");
   (JStr "10.0.0.2", sample_record "6" "10.0.0.2" "de:ad:be:ef:00:01" "")].

(** The same inventory with a record under an IP no host has. *)
Definition sample_existing_more : existing_map :=
  sample_existing
  ++ [(JStr "10.0.0.99", sample_record "7" "10.0.0.99" "cc:cc" "other")].

(** The writes the pass over [sample_hosts] sends against
    [sample_existing]. *)
Definition sample_writes : list request :=
  [create_request "ipam.example.com" "sync_agent" "3"
                  (HostInfo "10.0.0.1" "aa:bb:cc:dd:ee:ff" "myhost")
                  sample_token "https";
   update_request "ipam.example.com" "sync_agent" (JStr "5")
                  (HostInfo "10.0.0.50" "bb:bb:bb:bb:bb:bb" "renamed")
                  sample_token "https"].

(** A network that answers every request with an empty 200. *)
Definition net_ok : list request -> request -> result response :=
  fun _ _ => Ok (Response 200 (Some (JObj []))).

(** A network whose inventory endpoint answers 404. *)
Definition net_not_found : list request -> request -> result response :=
  fun _ r =>
    match req_url r with
    | SubnetAddressesUrl _ _ _ _ => Ok (Response 404 None)
    | _ => Ok (Response 200 (Some (JObj [])))
    end.

(** An inventory answer with a record that has no ip. *)
Definition sample_inventory : json :=
  JObj [("data",
         JArr [JObj [("id", JStr "8"); ("ip", JNull); ("mac", JStr "ee:ee")];
               sample_record "6" "10.0.0.2" "de:ad:be:ef:00:01" ""])].

(** The identifier the server gives to a new record. *)
Definition sample_new_id : request -> json := fun _ => JStr "100".

(** A network that answers every request with a 500. *)
Definition net_error : list request -> request -> result response :=
  fun _ _ => Ok (Response 500 None).

(** A network with the sample data behind it. *)
Definition net_sample : list request -> request -> result response :=
  fun _ r =>
    match req_url r with
    | LeasesUrl _ =>
        Ok (Response 200 (Some (JObj [("rows", JArr sample_leases)])))
    | ArpUrl _ => Ok (Response 200 (Some (JArr sample_arp)))
    | UserUrl _ _ _ =>
        Ok (Response 200
              (Some (JObj [("data", JObj [("token", sample_token)])])))
    | SubnetAddressesUrl _ _ _ _ =>
        Ok (Response 200
              (Some (JObj [("data", JArr (map snd sample_existing))])))
    | _ => Ok (Response 201 (Some (JObj [("id", JStr "10")])))
    end.

(** A record without mac, and one without id. *)
Definition sample_no_mac : existing_map :=
  [(JStr "10.0.0.1",
    JObj [("id", JStr "9"); ("ip", JStr "10.0.0.1");
          ("hostname", JStr "myhost")])].

Definition sample_no_id : existing_map :=
  [(JStr "10.0.0.1",
    JObj [("ip", JStr "10.0.0.1"); ("mac", JStr "00:00:00:00:00:00");
          ("hostname", JStr "myhost")])].

Definition sample_host : host_info :=
  HostInfo "10.0.0.1" "aa:bb:cc:dd:ee:ff" "myhost".

(** Induction on JSON values that reaches the items of arrays and the
    members of objects. *)
Section JsonInduction.
Variable P : json -> Prop.
Hypothesis HNull : P JNull.
Hypothesis HBool : forall b, P (JBool b).
Hypothesis HNum : forall n, P (JNum n).
Hypothesis HStr : forall s, P (JStr s).
Hypothesis HArr : forall xs, Forall P xs -> P (JArr xs).
Hypothesis HObj : forall kvs, Forall (fun kv => P (snd kv)) kvs -> P (JObj kvs).

Fixpoint json_nested_ind (j : json) : P j :=
  match j with
  | JNull => HNull
  | JBool b => HBool b
  | JNum n => HNum n
  | JStr s => HStr s
  | JArr xs =>
      HArr xs
        ((fix items (l : list json) : Forall P l :=
            match l with
            | [] => Forall_nil _
            | x :: l' => Forall_cons x (json_nested_ind x) (items l')
            end) xs)
  | JObj kvs =>
      HObj kvs
        ((fix members (l : list (string * json))
            : Forall (fun kv => P (snd kv)) l :=
            match l with
            | [] => Forall_nil _
            | kv :: l' =>
                Forall_cons kv (json_nested_ind (snd kv)) (members l')
            end) kvs)
  end.
End JsonInduction.

(** ** Properties of the building blocks *)

Lemma rbind_ok {A B} (a : A) (k : A -> result B) : rbind (Ok a) k = k a.
Proof. reflexivity. Qed.

Lemma for_each_app {A S} (body : S -> A -> result S) xs ys s :
  for_each body (xs ++ ys) s
  = rbind (for_each body xs s) (for_each body ys).
Proof.
  revert s; induction xs as [|x xs IH]; intros s; simpl.
  - reflexivity.
  - destruct (body s x) as [e|s']; simpl; [reflexivity | apply IH].
Qed.

(** Items on which the body does nothing can be removed from the loop. *)
Lemma for_each_filter {A S} (body : S -> A -> result S) (drop : A -> bool) :
  (forall s x, drop x = true -> body s x = Ok s) ->
  forall xs s,
    for_each body (filter (fun x => negb (drop x)) xs) s = for_each body xs s.
Proof.
  intros Hdrop xs; induction xs as [|x xs IH]; intros s; simpl.
  - reflexivity.
  - destruct (drop x) eqn:Hx; simpl.
    + rewrite (Hdrop s x Hx); simpl. apply IH.
    + destruct (body s x); simpl; [reflexivity | apply IH].
Qed.

(** A loop whose body never raises is a left fold. *)
Lemma for_each_total {A S} (body : S -> A -> result S) (f : S -> A -> S) xs :
  Forall (fun x => forall s, body s x = Ok (f s x)) xs ->
  forall s, for_each body xs s = Ok (fold_left f xs s).
Proof.
  induction 1 as [|x xs Hx _ IH]; intros s; simpl.
  - reflexivity.
  - rewrite Hx; simpl. apply IH.
Qed.

Section DictFacts.
Context {K V : Type}.
Variable eqb : K -> K -> bool.

(** Reading [k2] after writing [k], for two keys the equality test treats
    coherently. *)
Lemma dict_get_set (k k2 : K) (v : V) (d : dict K V) :
  (forall k', eqb k' k = true -> eqb k' k2 = eqb k k2) ->
  (forall k', eqb k' k = false -> eqb k k2 = true -> eqb k' k2 = false) ->
  dict_get eqb k2 (dict_set eqb k v d)
  = if eqb k k2 then Some v else dict_get eqb k2 d.
Proof.
  intros Hsame Hother; induction d as [|[k' v'] d IH]; simpl.
  - reflexivity.
  - destruct (eqb k' k) eqn:Hk; simpl.
    + rewrite (Hsame k' Hk). destruct (eqb k k2); reflexivity.
    + destruct (eqb k k2) eqn:Hk2.
      * rewrite (Hother k' Hk eq_refl). rewrite IH. reflexivity.
      * destruct (eqb k' k2); [reflexivity | apply IH].
Qed.

Lemma dict_get_none_not_key (k : K) (d : dict K V) :
  dict_get eqb k d = None <->
  Forall (fun kv => eqb (fst kv) k = false) d.
Proof.
  induction d as [|[k' v'] d IH]; simpl.
  - split; [constructor | reflexivity].
  - destruct (eqb k' k) eqn:Hk.
    + split; [discriminate | intros H; inversion H; simpl in *; congruence].
    + rewrite IH. split; [intros H; constructor; auto | intros H; now inversion H].
Qed.
End DictFacts.

(** *** Dictionaries keyed by str *)

Lemma str_get_set (k k2 : string) {V} (v : V) (d : dict string V) :
  dict_get String.eqb k2 (dict_set String.eqb k v d)
  = if String.eqb k k2 then Some v else dict_get String.eqb k2 d.
Proof.
  apply dict_get_set.
  - intros k' H; apply String.eqb_eq in H; now subst.
  - intros k' H H2; apply String.eqb_eq in H2; subst.
    exact H.
Qed.

Lemma str_set_keys (k : string) {V} (v : V) (d : dict string V) :
  dict_keys (dict_set String.eqb k v d)
  = if dict_mem String.eqb k d then dict_keys d else dict_keys d ++ [k].
Proof.
  unfold dict_mem, dict_keys; induction d as [|[k' v'] d IH]; simpl.
  - reflexivity.
  - destruct (String.eqb k' k) eqn:Hk; simpl.
    + reflexivity.
    + rewrite IH. destruct (dict_get String.eqb k d); reflexivity.
Qed.

Lemma str_mem_keys (k : string) {V} (d : dict string V) :
  dict_mem String.eqb k d = true <-> In k (dict_keys d).
Proof.
  unfold dict_mem, dict_keys; induction d as [|[k' v'] d IH]; simpl.
  - split; [discriminate | tauto].
  - destruct (String.eqb k' k) eqn:Hk.
    + apply String.eqb_eq in Hk. split; auto.
    + apply String.eqb_neq in Hk. rewrite IH. split; [auto | intros [H|H]; congruence].
Qed.

Lemma str_set_NoDup (k : string) {V} (v : V) (d : dict string V) :
  NoDup (dict_keys d) -> NoDup (dict_keys (dict_set String.eqb k v d)).
Proof.
  intros Hd. rewrite str_set_keys.
  destruct (dict_mem String.eqb k d) eqn:Hm; [exact Hd|].
  apply NoDup_app; [exact Hd | repeat constructor; simpl; tauto |].
  intros x Hx [<-|[]].
  apply str_mem_keys in Hx. congruence.
Qed.

(** ** The host record merger *)

Lemma get_stripped_ok (kvs : list (string * json)) (key : string) :
  field_ok (dict_get String.eqb key kvs) = true ->
  Py.get_stripped (JObj kvs) key = Ok (obs_field (JObj kvs) key).
Proof.
  unfold Py.get_stripped, obs_field; simpl.
  destruct (dict_get String.eqb key kvs) as [[| | |s| |]|]; simpl;
    try discriminate; try reflexivity.
  intros _. destruct s; reflexivity.
Qed.

Lemma merge_lease_ok (hosts : hosts_map) (e : json) :
  is_lease e = true ->
  merge_lease hosts e = Ok (insert_host hosts (lease_host e)).
Proof.
  destruct e as [| | | | |kvs]; try discriminate.
  unfold is_lease, is_observation, forallb.
  rewrite !andb_true_iff. intros (Ha & Hm & Hh & _).
  unfold merge_lease.
  rewrite (get_stripped_ok _ _ Ha), (get_stripped_ok _ _ Hm),
    (get_stripped_ok _ _ Hh), !rbind_ok.
  unfold insert_host, lease_host; cbn [hi_ip].
  now destruct (PyStr.truthy _).
Qed.

Lemma merge_arp_entry_ok (hosts : hosts_map) (e : json) :
  is_arp_entry e = true ->
  merge_arp_entry hosts e = Ok (insert_host hosts (arp_host e)).
Proof.
  destruct e as [| | | | |kvs]; try discriminate.
  unfold is_arp_entry, is_observation, forallb.
  rewrite !andb_true_iff. intros (Ha & Hm & _).
  unfold merge_arp_entry.
  rewrite (get_stripped_ok _ _ Ha), (get_stripped_ok _ _ Hm), !rbind_ok.
  unfold insert_host, arp_host; cbn [hi_ip].
  now destruct (PyStr.truthy _).
Qed.

Lemma merge_lease_blank (hosts : hosts_map) (e : json) :
  blank_lease e = true -> merge_lease hosts e = Ok hosts.
Proof.
  unfold blank_lease. rewrite andb_true_iff, negb_true_iff. intros [He Hip].
  rewrite (merge_lease_ok _ _ He). unfold insert_host, lease_host; simpl.
  now rewrite Hip.
Qed.

Lemma merge_arp_entry_blank (hosts : hosts_map) (e : json) :
  blank_arp_entry e = true -> merge_arp_entry hosts e = Ok hosts.
Proof.
  unfold blank_arp_entry. rewrite andb_true_iff, negb_true_iff.
  intros [He Hip].
  rewrite (merge_arp_entry_ok _ _ He). unfold insert_host, arp_host; simpl.
  now rewrite Hip.
Qed.

Lemma fold_left_map {A B S} (f : S -> B -> S) (g : A -> B) xs s :
  fold_left f (map g xs) s = fold_left (fun s x => f s (g x)) xs s.
Proof. revert s; induction xs; intros s; simpl; auto. Qed.

(** On observations the merger is two folds of [insert_host]. *)
Lemma merge_sources_ok (leases arp : list json) :
  Forall (fun e => is_lease e = true) leases ->
  Forall (fun e => is_arp_entry e = true) arp ->
  merge_sources (JArr leases) (JArr arp)
  = Ok (fold_left insert_host (map lease_host leases)
          (fold_left insert_host (map arp_host arp) [])).
Proof.
  intros Hl Ha. unfold merge_sources; simpl.
  rewrite (for_each_total merge_arp_entry
             (fun d e => insert_host d (arp_host e))).
  - simpl.
    rewrite (for_each_total merge_lease
               (fun d e => insert_host d (lease_host e))).
    + now rewrite !fold_left_map.
    + eapply Forall_impl; [|exact Hl]. intros e He d.
      now apply merge_lease_ok.
  - eapply Forall_impl; [|exact Ha]. intros e He d.
    now apply merge_arp_entry_ok.
Qed.

Lemma last_with_ip_snoc ip hs h :
  last_with_ip ip (hs ++ [h])
  = if String.eqb (hi_ip h) ip then Some h else last_with_ip ip hs.
Proof. unfold last_with_ip. rewrite rev_app_distr. reflexivity. Qed.

Lemma insert_all_get (ip : string) (hs : list host_info) (d : hosts_map) :
  PyStr.truthy ip = true ->
  dict_get String.eqb ip (fold_left insert_host hs d)
  = match last_with_ip ip hs with
    | Some h => Some h
    | None => dict_get String.eqb ip d
    end.
Proof.
  intros Hip. induction hs as [|h hs IH] using rev_ind.
  - reflexivity.
  - rewrite fold_left_app, last_with_ip_snoc; simpl.
    unfold insert_host at 1.
    destruct (PyStr.truthy (hi_ip h)) eqn:Hh.
    + rewrite str_get_set. destruct (String.eqb (hi_ip h) ip); [reflexivity | exact IH].
    + destruct (String.eqb (hi_ip h) ip) eqn:E; [|exact IH].
      apply String.eqb_eq in E. congruence.
Qed.

Lemma insert_all_NoDup (hs : list host_info) (d : hosts_map) :
  NoDup (dict_keys d) -> NoDup (dict_keys (fold_left insert_host hs d)).
Proof.
  revert d; induction hs as [|h hs IH]; intros d Hd; simpl; [exact Hd|].
  apply IH. unfold insert_host.
  destruct (PyStr.truthy (hi_ip h)); [now apply str_set_NoDup | exact Hd].
Qed.

Lemma insert_all_keys_truthy (hs : list host_info) (d : hosts_map) :
  Forall (fun k => PyStr.truthy k = true) (dict_keys d) ->
  Forall (fun k => PyStr.truthy k = true)
         (dict_keys (fold_left insert_host hs d)).
Proof.
  revert d; induction hs as [|h hs IH]; intros d Hd; simpl; [exact Hd|].
  apply IH. unfold insert_host.
  destruct (PyStr.truthy (hi_ip h)) eqn:Hh; [|exact Hd].
  rewrite str_set_keys. destruct (dict_mem String.eqb (hi_ip h) d); [exact Hd|].
  apply Forall_app; split; [exact Hd | now repeat constructor].
Qed.

Lemma str_get_not_key {V} (k : string) (d : dict string V) :
  ~ In k (dict_keys d) -> dict_get String.eqb k d = None.
Proof.
  intros Hk. destruct (dict_get String.eqb k d) eqn:E; [|reflexivity].
  exfalso; apply Hk, str_mem_keys. unfold dict_mem. now rewrite E.
Qed.

(** C2: the merger keeps at most one canonical host per IP; an IP seen in the
    leases carries the mac and hostname of its (last) lease whatever the ARP
    table says, and an IP seen only in the ARP table carries the mac of its
    (last) ARP entry and an empty hostname. *)
Theorem merge_sources_lease_precedence (leases arp : list json) :
  Forall (fun e => is_lease e = true) leases ->
  Forall (fun e => is_arp_entry e = true) arp ->
  exists hosts,
    merge_sources (JArr leases) (JArr arp) = Ok hosts
    /\ NoDup (dict_keys hosts)
    /\ forall ip,
         dict_get String.eqb ip hosts
         = if PyStr.truthy ip then
             match last_with_ip ip (map lease_host leases) with
             | Some l => Some l
             | None => last_with_ip ip (map arp_host arp)
             end
           else None.
Proof.
  intros Hl Ha. eexists. split; [now apply merge_sources_ok|]. split.
  - apply insert_all_NoDup, insert_all_NoDup. constructor.
  - intros ip. destruct (PyStr.truthy ip) eqn:Hip.
    + rewrite (insert_all_get ip _ _ Hip).
      destruct (last_with_ip ip (map lease_host leases)); [reflexivity|].
      rewrite (insert_all_get ip _ _ Hip).
      destruct (last_with_ip ip (map arp_host arp)); reflexivity.
    + apply str_get_not_key. intros Hin.
      pose proof (insert_all_keys_truthy (map lease_host leases)
                    (fold_left insert_host (map arp_host arp) [])
                    (insert_all_keys_truthy _ [] (Forall_nil _))) as Hk.
      rewrite Forall_forall in Hk. specialize (Hk ip Hin). congruence.
Qed.

(** C5: observations whose ip is missing, null or blank leave no trace: the
    merger gives the same outcome with and without them, each of them passes
    through its loop round without an exception and without touching the
    mapping, and two empty lists merge into the empty mapping. *)
Theorem merge_sources_drops_blank_ip (leases arp : list json) :
  merge_sources (JArr leases) (JArr arp)
  = merge_sources (JArr (filter (fun e => negb (blank_lease e)) leases))
                  (JArr (filter (fun e => negb (blank_arp_entry e)) arp))
  /\ (forall hosts e, blank_lease e = true -> merge_lease hosts e = Ok hosts)
  /\ (forall hosts e,
        blank_arp_entry e = true -> merge_arp_entry hosts e = Ok hosts)
  /\ merge_sources (JArr []) (JArr []) = Ok [].
Proof.
  split; [|split; [|split]].
  - unfold merge_sources; simpl.
    rewrite (for_each_filter merge_arp_entry blank_arp_entry
               merge_arp_entry_blank).
    destruct (for_each merge_arp_entry arp []) as [e|hosts]; simpl;
      [reflexivity|].
    now rewrite (for_each_filter merge_lease blank_lease merge_lease_blank).
  - exact merge_lease_blank.
  - exact merge_arp_entry_blank.
  - reflexivity.
Qed.

(** ** The reconciler *)

Section Reconciler.
Variable net : list request -> request -> result response.
Variables (cfg : config) (scheme : string) (token : json).

Lemma create_address_ok (h : host_info) (log : list request) :
  accepts_writes net ->
  create_address net (phpipam_host cfg) (phpipam_app_id cfg)
                 (phpipam_subnet_id cfg) h token scheme log
  = (Ok tt, log ++ spec_requests cfg scheme token h Create).
Proof.
  intros Hnet. unfold create_address, bind, send, lift.
  destruct (Hnet log (create_request (phpipam_host cfg) (phpipam_app_id cfg)
                        (phpipam_subnet_id cfg) h token scheme) eq_refl)
    as (resp & Hresp & Hstatus).
  rewrite Hresp; simpl. rewrite Hstatus. reflexivity.
Qed.

Lemma update_address_ok (address_id : json) (h : host_info)
    (log : list request) :
  accepts_writes net ->
  update_address net (phpipam_host cfg) (phpipam_app_id cfg) address_id
                 h token scheme log
  = (Ok tt, log ++ [update_request (phpipam_host cfg) (phpipam_app_id cfg)
                                   address_id h token scheme]).
Proof.
  intros Hnet. unfold update_address, bind, send, lift.
  destruct (Hnet log (update_request (phpipam_host cfg) (phpipam_app_id cfg)
                        address_id h token scheme) eq_refl)
    as (resp & Hresp & Hstatus).
  rewrite Hresp; simpl. rewrite Hstatus. reflexivity.
Qed.

Lemma ne_str_same (x : option json) (s : string) :
  Py.ne_str x s = negb (same_str x s).
Proof. destruct x as [[]|]; reflexivity. Qed.

(** The comparison of the loop is the comparison of the specification. *)
Lemma differs_spec (kvs : list (string * json)) (h : host_info) :
  differs (JObj kvs) h
  = Ok (negb (same_str (record_field (JObj kvs) "mac") (hi_mac h)
              && same_str (record_field (JObj kvs) "hostname")
                          (hi_hostname h))).
Proof.
  unfold differs; simpl. rewrite !ne_str_same.
  destruct (same_str _ (hi_mac h)); simpl; reflexivity.
Qed.

(** One round of the loop performs the decision of the specification. *)
Lemma sync_host_spec (existing : existing_map) (s : summary)
    (item : string * host_info) (log : list request) :
  accepts_writes net ->
  (forall current,
      dict_get Py.key_eqb (JStr (fst item)) existing = Some current ->
      is_record current = true) ->
  sync_host net cfg scheme token existing s item log
  = (Ok (bump s (spec_action existing item)),
     log ++ spec_requests cfg scheme token (snd item)
                          (spec_action existing item)).
Proof.
  intros Hnet Hrec. destruct item as [ip h].
  unfold sync_host, spec_action; simpl fst in *; simpl snd.
  destruct (dict_get Py.key_eqb (JStr ip) existing) as [current|] eqn:Hget.
  - specialize (Hrec current eq_refl). unfold is_record in Hrec.
    destruct current as [| | | | |kvs]; try discriminate.
    unfold bind at 1, lift at 1. rewrite differs_spec.
    destruct (same_str _ (hi_mac h) && same_str _ (hi_hostname h)); simpl.
    + unfold ret. now rewrite app_nil_r.
    + simpl in Hrec.
      destruct (dict_get String.eqb "id" kvs) as [address_id|] eqn:Hid;
        [|discriminate].
      unfold bind at 1, lift at 1; simpl.
      unfold bind at 1.
      rewrite (update_address_ok address_id h log Hnet). reflexivity.
  - unfold bind. rewrite (create_address_ok h log Hnet). reflexivity.
Qed.

(** C1: provided the IPAM side accepts the writes and the records met carry
    an id, the loop sends for every IP exactly the write of its decision
    (one creation request with subnet identifier, ip, mac and hostname; one
    update request to the record's id with only mac and hostname; or
    nothing) and increments exactly the counter of that decision. *)
Theorem sync_hosts_decisions (existing : existing_map)
    (items : list (string * host_info)) (s : summary)
    (log : list request) :
  accepts_writes net ->
  (forall ip h current,
      In (ip, h) items ->
      dict_get Py.key_eqb (JStr ip) existing = Some current ->
      is_record current = true) ->
  sync_hosts net cfg scheme token existing items s log
  = (Ok (fold_left bump (map (spec_action existing) items) s),
     log ++ flat_map (fun item =>
                        spec_requests cfg scheme token (snd item)
                                      (spec_action existing item))
                     items).
Proof.
  intros Hnet. revert s log.
  induction items as [|[ip h] rest IH]; intros s log Hrec.
  - simpl. unfold ret. now rewrite app_nil_r.
  - cbn [sync_hosts map fold_left flat_map].
    unfold bind at 1. rewrite sync_host_spec; [|exact Hnet|].
    + unfold Ok at 1; cbv beta iota. rewrite IH.
      * now rewrite app_assoc.
      * intros ip' h' current Hin. apply (Hrec ip' h'). now right.
    + intros current. apply (Hrec ip h). now left.
Qed.

End Reconciler.

(** ** Counting and framing *)

Section ReconcilerFrame.
Variable net : list request -> request -> result response.
Variables (cfg : config) (scheme : string) (token : json).

Lemma bind_ok_inv {A B} (m : M A) (k : A -> M B) log b log' :
  bind m k log = (Ok b, log') ->
  exists a log1, m log = (Ok a, log1) /\ k a log1 = (Ok b, log').
Proof.
  unfold bind. destruct (m log) as [[e|a] log1]; [discriminate|].
  intros H. now exists a, log1.
Qed.

(** A round that returns has incremented exactly one counter. *)
Lemma sync_host_counts (existing : existing_map) (s s' : summary)
    (item : string * host_info) (log log' : list request) :
  sync_host net cfg scheme token existing s item log = (Ok s', log') ->
  created s <= created s' /\ updated s <= updated s'
  /\ skipped s <= skipped s'
  /\ created s' + updated s' + skipped s'
     = created s + updated s + skipped s + 1.
Proof.
  destruct item as [ip h]. unfold sync_host.
  destruct (dict_get Py.key_eqb (JStr ip) existing) as [current|].
  - intros H. apply bind_ok_inv in H. destruct H as (changed & log1 & _ & H).
    destruct changed.
    + apply bind_ok_inv in H. destruct H as (aid & log2 & _ & H).
      apply bind_ok_inv in H. destruct H as (u & log3 & _ & H).
      inversion H; subst; simpl; lia.
    + inversion H; subst; simpl; lia.
  - intros H. apply bind_ok_inv in H. destruct H as (u & log1 & _ & H).
    inversion H; subst; simpl; lia.
Qed.

(** C4: when the pass over the canonical hosts completes, the three counts
    are non-negative and add up to the number of hosts: one decision is
    counted per IP. *)
Theorem sync_hosts_counts (existing : existing_map)
    (items : list (string * host_info)) (s : summary)
    (log log' : list request) :
  sync_hosts net cfg scheme token existing items (Summary 0 0 0) log
  = (Ok s, log') ->
  0 <= created s /\ 0 <= updated s /\ 0 <= skipped s
  /\ created s + updated s + skipped s = Z.of_nat (List.length items).
Proof.
  assert (Hgen : forall (s0 s1 : summary) (l0 l1 : list request),
             sync_hosts net cfg scheme token existing items s0 l0
             = (Ok s1, l1) ->
             created s0 <= created s1 /\ updated s0 <= updated s1
             /\ skipped s0 <= skipped s1
             /\ created s1 + updated s1 + skipped s1
                = created s0 + updated s0 + skipped s0
                  + Z.of_nat (List.length items)).
  { induction items as [|item rest IH]; intros s0 s1 l0 l1 H.
    - inversion H; subst; simpl; lia.
    - cbn [sync_hosts] in H. apply bind_ok_inv in H.
      destruct H as (sm & lm & Hhost & Hrest).
      apply sync_host_counts in Hhost. apply IH in Hrest.
      cbn [List.length]. lia. }
  intros H. apply Hgen in H. simpl in H. lia.
Qed.

(** A round looks at the existing records only under the host's own IP. *)
Lemma sync_host_ext (existing existing' : existing_map) (s : summary)
    (item : string * host_info) :
  dict_get Py.key_eqb (JStr (fst item)) existing'
  = dict_get Py.key_eqb (JStr (fst item)) existing ->
  sync_host net cfg scheme token existing' s item
  = sync_host net cfg scheme token existing s item.
Proof.
  destruct item as [ip h]; simpl. intros H. unfold sync_host.
  now rewrite H.
Qed.

Lemma sync_hosts_ext (existing existing' : existing_map)
    (items : list (string * host_info)) :
  (forall ip h, In (ip, h) items ->
     dict_get Py.key_eqb (JStr ip) existing'
     = dict_get Py.key_eqb (JStr ip) existing) ->
  forall s log,
    sync_hosts net cfg scheme token existing' items s log
    = sync_hosts net cfg scheme token existing items s log.
Proof.
  induction items as [|[ip h] rest IH]; intros Hagree s log.
  - reflexivity.
  - cbn [sync_hosts]. unfold bind.
    rewrite (sync_host_ext existing existing')
      by (apply (Hagree ip h); now left).
    destruct (sync_host net cfg scheme token existing s (ip, h) log)
      as [[e|s'] log1]; [reflexivity|].
    apply IH. intros ip' h' Hin. apply (Hagree ip' h'). now right.
Qed.

(** Whatever happens in a round, the only request it can send is the write
    of its decision. *)
Lemma sync_host_sent (existing : existing_map) (s : summary)
    (item : string * host_info) (log : list request) :
  exists sent,
    snd (sync_host net cfg scheme token existing s item log) = log ++ sent
    /\ incl sent (spec_requests cfg scheme token (snd item)
                                (spec_action existing item)).
Proof.
  destruct item as [ip h]. unfold sync_host, spec_action; simpl fst; simpl snd.
  destruct (dict_get Py.key_eqb (JStr ip) existing) as [current|].
  - destruct current as [| | | | |kvs];
      try (exists []; split; [simpl; now rewrite app_nil_r | apply incl_nil_l]).
    unfold bind at 1, lift at 1. rewrite differs_spec.
    destruct (same_str _ (hi_mac h) && same_str _ (hi_hostname h)); simpl.
    + exists []. split; [now rewrite app_nil_r | apply incl_nil_l].
    + unfold bind at 1, lift at 1; simpl.
      destruct (dict_get String.eqb "id" kvs) as [address_id|].
      * exists [update_request (phpipam_host cfg) (phpipam_app_id cfg)
                               address_id h token scheme].
        split; [|apply incl_refl].
        unfold update_address, bind, send, lift, ret; simpl.
        match goal with
        | |- context [net log ?r] => destruct (net log r) as [e|resp]
        end; [reflexivity|].
        destruct (raise_for_status resp); reflexivity.
      * exists []. split; [simpl; now rewrite app_nil_r | apply incl_nil_l].
  - exists [create_request (phpipam_host cfg) (phpipam_app_id cfg)
                           (phpipam_subnet_id cfg) h token scheme].
    split; [|apply incl_refl].
    unfold create_address, bind, send, lift, ret; simpl.
    match goal with
    | |- context [net log ?r] => destruct (net log r) as [e|resp]
    end; [reflexivity|].
    destruct (raise_for_status resp); reflexivity.
Qed.

Lemma sync_hosts_sent (existing : existing_map)
    (items : list (string * host_info)) (s : summary)
    (log : list request) :
  exists sent,
    snd (sync_hosts net cfg scheme token existing items s log) = log ++ sent
    /\ forall q, In q sent ->
         exists item, In item items
           /\ In q (spec_requests cfg scheme token (snd item)
                                  (spec_action existing item)).
Proof.
  revert s log. induction items as [|item rest IH]; intros s log.
  - exists []. split; [simpl; now rewrite app_nil_r | intros q []].
  - cbn [sync_hosts]. unfold bind.
    destruct (sync_host_sent existing s item log) as (sent1 & Hlog1 & Hin1).
    destruct (sync_host net cfg scheme token existing s item log)
      as [[e|s'] log1]; simpl in Hlog1; subst log1.
    + exists sent1. split; [reflexivity|].
      intros q Hq. exists item. split; [now left | now apply Hin1].
    + destruct (IH s' (log ++ sent1)) as (sent2 & Hlog2 & Hin2).
      exists (sent1 ++ sent2). split; [now rewrite Hlog2, app_assoc|].
      intros q Hq. apply in_app_or in Hq. destruct Hq as [Hq|Hq].
      * exists item. split; [now left | now apply Hin1].
      * destruct (Hin2 q Hq) as (item' & Hitem & Hq').
        exists item'. split; [now right | exact Hq'].
Qed.

(** C10: the pass depends on the existing records only through the entries
    stored under the hosts' IPs, so a record under any other IP changes
    neither the summary nor the requests; and every request the pass sends,
    whether or not it completes, is the create or update the decision for
    one of the hosts calls for. *)
Theorem sync_hosts_frame (existing existing' : existing_map)
    (items : list (string * host_info)) (s : summary)
    (log : list request) :
  (forall ip h, In (ip, h) items ->
     dict_get Py.key_eqb (JStr ip) existing'
     = dict_get Py.key_eqb (JStr ip) existing) ->
  sync_hosts net cfg scheme token existing' items s log
  = sync_hosts net cfg scheme token existing items s log
  /\ exists sent,
       snd (sync_hosts net cfg scheme token existing items s log)
       = log ++ sent
       /\ forall q, In q sent ->
            exists item, In item items
              /\ In q (spec_requests cfg scheme token (snd item)
                                     (spec_action existing item)).
Proof.
  intros Hagree. split.
  - now apply sync_hosts_ext.
  - apply sync_hosts_sent.
Qed.

End ReconcilerFrame.

(** ** The remote inventory fetcher *)

Lemma key_eqb_str (k : json) (s : string) :
  Py.key_eqb k (JStr s) = true <-> k = JStr s.
Proof.
  destruct k; simpl; try (split; [discriminate | intros H; inversion H]).
  rewrite String.eqb_eq. split; [now intros -> | now intros [= ->]].
Qed.

Lemma dict_set_keys_incl {K V} (eqb : K -> K -> bool) (k : K) (v : V)
    (d : dict K V) :
  incl (dict_keys (dict_set eqb k v d)) (k :: dict_keys d).
Proof.
  unfold dict_keys; induction d as [|[k' v'] d IH]; simpl.
  - apply incl_refl.
  - destruct (eqb k' k); simpl.
    + apply incl_tl, incl_refl.
    + intros x [<-|Hx]; [right; now left|].
      destruct (IH x Hx) as [<-|Hin]; [now left | right; now right].
Qed.

(** A record without ip passes through the comprehension untouched. *)
Lemma index_address_no_ip (acc : existing_map) (r : json) :
  no_ip r = true -> index_address acc r = Ok acc.
Proof.
  destruct r as [| | | | |kvs]; try discriminate.
  unfold no_ip, index_address; simpl.
  destruct (dict_get String.eqb "ip" kvs) as [[| | |[|c s]| |]|];
    try discriminate; reflexivity.
Qed.

(** Every key of the comprehension is the truthy ip of one of the records. *)
Lemma index_address_keys (rs : list json) :
  forall (acc ex : existing_map),
    for_each index_address rs acc = Ok ex ->
    forall k, In k (dict_keys ex) ->
      In k (dict_keys acc)
      \/ exists r, In r rs /\ record_field r "ip" = Some k
                   /\ Py.truthy k = true.
Proof.
  induction rs as [|r rs IH]; intros acc ex H k Hk.
  - inversion H; subst. now left.
  - cbn [for_each] in H.
    destruct (index_address acc r) as [e|acc'] eqn:Hr; [discriminate|].
    simpl in H. destruct (IH acc' ex H k Hk) as [Hin|(r' & Hr' & Hf & Ht)].
    + unfold index_address in Hr.
      destruct r as [| | | | |kvs]; try discriminate. simpl in Hr.
      destruct (dict_get String.eqb "ip" kvs) as [v|] eqn:Hip;
        [|inversion Hr; subst; now left].
      destruct (Py.truthy v) eqn:Hv; [|inversion Hr; subst; now left].
      rewrite rbind_ok in Hr.
      destruct (Py.hashable v); [|discriminate].
      inversion Hr; subst acc'.
      apply dict_set_keys_incl in Hin. destruct Hin as [<-|Hin]; [|now left].
      right. exists (JObj kvs). repeat split; [now left | exact Hip | exact Hv].
    + right. exists r'. repeat split; [now right | exact Hf | exact Ht].
Qed.

(** C9: a null or missing [data] is an empty inventory; the records whose ip
    is missing, null or empty can be removed from the response without
    changing the mapping; and a host IP under which the response holds only
    such records has no entry in the mapping, so its loop round is the
    creation. *)
Theorem inventory_ignores_records_without_ip
    (net : list request -> request -> result response)
    (resp : response) (data : json) :
  status_code resp <> 404 ->
  raise_for_status resp = Ok tt ->
  response_json resp = Ok data ->
  ((Py.get data "data" = Ok None \/ Py.get data "data" = Ok (Some JNull)) ->
   addresses_of_response resp = Ok [])
  /\ forall records,
       Py.get data "data" = Ok (Some (JArr records)) ->
       addresses_of_response resp
       = for_each index_address
                  (filter (fun r => negb (no_ip r)) records) []
       /\ forall existing ip,
            addresses_of_response resp = Ok existing ->
            (forall r, In r records ->
                       record_field r "ip" = Some (JStr ip) ->
                       no_ip r = true) ->
            dict_get Py.key_eqb (JStr ip) existing = None
            /\ forall cfg scheme token s h,
                 sync_host net cfg scheme token existing s (ip, h)
                 = bind (create_address net (phpipam_host cfg)
                           (phpipam_app_id cfg) (phpipam_subnet_id cfg)
                           h token scheme)
                        (fun _ => ret (Summary (created s + 1) (updated s)
                                               (skipped s))).
Proof.
  intros H404 Hstatus Hjson.
  apply Z.eqb_neq in H404.
  assert (Hunfold : forall d,
             Py.get data "data" = Ok d ->
             addresses_of_response resp
             = rbind (Py.iter (match d with
                               | Some x => if Py.truthy x then x else JArr []
                               | None => JArr []
                               end))
                     (fun items => for_each index_address items [])).
  { intros d Hd. unfold addresses_of_response.
    now rewrite H404, Hstatus, Hjson, !rbind_ok, Hd, rbind_ok. }
  split.
  - intros [Hd|Hd]; now rewrite (Hunfold _ Hd).
  - intros records Hd.
    assert (Hall : addresses_of_response resp
                   = for_each index_address records []).
    { rewrite (Hunfold _ Hd). simpl. now destruct records. }
    split.
    + rewrite Hall. symmetry.
      apply (for_each_filter index_address no_ip index_address_no_ip).
    + intros existing ip Hex Hrecs.
      assert (Hnone : dict_get Py.key_eqb (JStr ip) existing = None).
      { apply dict_get_none_not_key. apply Forall_forall. intros [k v] Hkv.
        simpl. destruct (Py.key_eqb k (JStr ip)) eqn:Hk; [|reflexivity].
        apply key_eqb_str in Hk. subst k. exfalso.
        rewrite Hall in Hex.
        destruct (index_address_keys records [] existing Hex (JStr ip))
          as [[]|(r & Hr & Hf & Ht)].
        { unfold dict_keys. apply in_map_iff. now exists (JStr ip, v). }
        specialize (Hrecs r Hr Hf).
        destruct r as [| | | | |kvs]; try discriminate.
        simpl in Hf, Hrecs. rewrite Hf in Hrecs.
        destruct ip; [discriminate Ht | discriminate Hrecs]. }
      split; [exact Hnone|].
      intros cfg scheme token s h. unfold sync_host. now rewrite Hnone.
Qed.

(** Against an empty inventory every round is a creation. *)
Lemma sync_hosts_empty_inventory
    (net : list request -> request -> result response)
    (cfg : config) (scheme : string) (token : json)
    (items : list (string * host_info)) :
  accepts_writes net ->
  forall s log,
    sync_hosts net cfg scheme token [] items s log
    = (Ok (Summary (created s + Z.of_nat (List.length items))
                   (updated s) (skipped s)),
       log ++ flat_map (fun item =>
                          spec_requests cfg scheme token (snd item) Create)
                       items).
Proof.
  intros Hnet. induction items as [|item rest IH]; intros s log.
  - simpl. unfold ret. rewrite app_nil_r, Z.add_0_r. now destruct s.
  - cbn [sync_hosts flat_map List.length]. unfold bind at 1.
    rewrite (sync_host_spec net cfg scheme token [] s item log Hnet)
      by discriminate.
    unfold Ok at 1; cbv beta iota. rewrite IH.
    cbn [spec_action dict_get bump created updated skipped].
    rewrite app_assoc. do 3 f_equal. lia.
Qed.

(** C6: a 404 answer to the inventory request is an empty inventory, not an
    exception, and the pass that follows it creates every canonical host. *)
Theorem not_found_inventory_creates_all
    (net : list request -> request -> result response)
    (cfg : config) (scheme : string) (token : json)
    (items : list (string * host_info)) (s : summary)
    (log : list request) (resp : response) :
  net log (inventory_request cfg scheme token) = Ok resp ->
  status_code resp = 404 ->
  accepts_writes net ->
  addresses_of_response resp = Ok []
  /\ bind (get_subnet_addresses net (phpipam_host cfg) (phpipam_app_id cfg)
             (phpipam_subnet_id cfg) token scheme)
          (fun existing =>
             sync_hosts net cfg scheme token existing items s) log
     = (Ok (Summary (created s + Z.of_nat (List.length items))
                    (updated s) (skipped s)),
        log ++ inventory_request cfg scheme token
            :: flat_map (fun item =>
                           spec_requests cfg scheme token (snd item) Create)
                        items).
Proof.
  intros Hnet H404 Hwrites.
  assert (Hempty : addresses_of_response resp = Ok []).
  { unfold addresses_of_response. now rewrite H404. }
  split; [exact Hempty|].
  unfold bind at 1, get_subnet_addresses, bind at 1, send, lift.
  fold (inventory_request cfg scheme token).
  rewrite Hnet; unfold Ok at 1; cbv beta iota.
  rewrite Hempty; unfold Ok at 1; cbv beta iota.
  rewrite (sync_hosts_empty_inventory net cfg scheme token items Hwrites).
  now rewrite <- app_assoc.
Qed.

(** ** Authentication *)

(** X20: where the body is an object whose [data] is missing or is an
    object, the token is returned exactly when it is there and truthy, and
    its absence is the authentication failure. *)
Lemma phpipam_authenticate_object_data
    (net : list request -> request -> result response)
    (host app_id app_code scheme : string) (log : list request)
    (resp : response) (kvs fields : list (string * json)) :
  net log (auth_request host app_id app_code scheme) = Ok resp ->
  raise_for_status resp = Ok tt ->
  response_json resp = Ok (JObj kvs) ->
  dict_get String.eqb "data" kvs = Some (JObj fields)
  \/ (dict_get String.eqb "data" kvs = None /\ fields = []) ->
  phpipam_authenticate net host app_id app_code scheme log
  = (match dict_get String.eqb "token" fields with
     | Some t => if Py.truthy t then Ok t else Raise no_token
     | None => Raise no_token
     end,
     log ++ [auth_request host app_id app_code scheme]).
Proof.
  intros Hnet Hstatus Hjson Hdata.
  unfold phpipam_authenticate, bind at 1, send.
  fold (auth_request host app_id app_code scheme).
  rewrite Hnet; unfold Ok at 1; cbv beta iota.
  unfold bind at 1, lift at 1. rewrite Hstatus; unfold Ok at 1; cbv beta iota.
  unfold bind at 1, lift at 1. rewrite Hjson; unfold Ok at 1; cbv beta iota.
  unfold bind, lift; simpl.
  destruct Hdata as [->|[-> ->]]; simpl; [|reflexivity].
  destruct (dict_get String.eqb "token" fields) as [t|]; [|reflexivity].
  destruct (Py.truthy t); reflexivity.
Qed.

(** C7: on a 200 answer whose body is [{"data": null}] the token is absent,
    yet the authentication step ends in an [AttributeError] and not in its
    authentication failure; the inventory fetcher, given the same body,
    reads the null as empty. *)
Theorem authenticate_null_data_attribute_error :
  phpipam_authenticate net_null_data "ipam.example.com" "sync_agent" "code"
                       "https" []
  = (Raise AttributeError,
     [auth_request "ipam.example.com" "sync_agent" "code" "https"])
  /\ raise_for_status null_data_response = Ok tt
  /\ Raise (A:=json) AttributeError <> Raise no_token
  /\ addresses_of_response null_data_response = Ok [].
Proof. repeat split; try reflexivity. discriminate. Qed.

(** ** Configuration failures *)

Lemma get_env_cases (env : environment) (name : string) :
  (PyStr.strip (environ_get env name "") = ""
   /\ get_env env name
      = Raise (EnvironmentError
                 ("Required environment variable '" ++ name
                  ++ "' is not set.")%string))
  \/ (PyStr.strip (environ_get env name "") <> ""
      /\ get_env env name = Ok (PyStr.strip (environ_get env name ""))).
Proof.
  unfold get_env.
  destruct (PyStr.strip (environ_get env name "")) eqn:E; simpl.
  - left. now split.
  - right. now split.
Qed.

(** X19: with an allowed scheme, a required variable that is missing or
    blank ends the program through [sys.exit(1)], after the message that
    names a missing variable was logged and before any request. *)
Lemma missing_required_exits
    (net : list request -> request -> result response)
    (env : environment) (name : string) :
  scheme_allowed env = true ->
  In name required_names ->
  PyStr.strip (environ_get env name "") = "" ->
  exists name',
    In name' required_names
    /\ PyStr.strip (environ_get env name' "") = ""
    /\ main net env
       = Process (Exit 1)
                 [("Required environment variable '" ++ name'
                   ++ "' is not set.")%string] [].
Proof.
  intros Hscheme Hin Hblank. unfold scheme_allowed in Hscheme.
  unfold main, load_config. rewrite Hscheme; cbn [negb].
  repeat
    match goal with
    | |- context [get_env env ?n] =>
        let Hb := fresh "Hb" in
        destruct (get_env_cases env n) as [[Hb ->]|[Hb ->]];
        [exists n; split; [simpl; tauto | split; [exact Hb | reflexivity]]
        | rewrite rbind_ok]
    end.
  exfalso. simpl in Hin.
  repeat (destruct Hin as [<-|Hin]; [congruence|]). exact Hin.
Qed.

(** C8: with every required variable set and [PHPIPAM_SCHEME=ftp], and also
    with nothing set but that scheme, the program sends no request but ends
    in a [ValueError] that nothing catches, where a missing required
    variable ends it through the logged message and [sys.exit(1)]. *)
Theorem invalid_scheme_is_uncaught
    (net : list request -> request -> result response) :
  main net env_ftp_scheme
  = Process (Uncaught (ValueError "PHPIPAM_SCHEME must be 'http' or 'https'."))
            [] []
  /\ main net env_only_ftp_scheme
     = Process
         (Uncaught (ValueError "PHPIPAM_SCHEME must be 'http' or 'https'."))
         [] []
  /\ main net env_missing_key
     = Process (Exit 1)
               ["Required environment variable 'OPNSENSE_KEY' is not set."]
               [].
Proof. repeat split; reflexivity. Qed.

(** ** Idempotence *)

Lemma json_eqb_eq (a b : json) : json_eqb a b = true <-> a = b.
Proof.
  revert b. induction a as [| b0 | n | s | xs IH | kvs IH] using json_nested_ind;
    intros b; destruct b as [| b1 | m | t | ys | kvs']; simpl;
    try (split; [discriminate | intros H; inversion H]);
    try (split; reflexivity).
  - rewrite Bool.eqb_true_iff. split; [now intros -> | now intros [= ->]].
  - rewrite Z.eqb_eq. split; [now intros -> | now intros [= ->]].
  - rewrite String.eqb_eq. split; [now intros -> | now intros [= ->]].
  - match goal with
    | |- ?go xs ys = true <-> _ =>
        assert (H : forall l', go xs l' = true <-> xs = l')
    end.
    { induction IH as [|x xs Hx _ IHxs]; intros [|y l']; simpl;
        try (split; [discriminate | intros H; inversion H]);
        try (split; reflexivity).
      rewrite andb_true_iff, Hx, IHxs.
      split; [now intros [-> ->] | now intros [= -> ->]]. }
    rewrite H. split; [now intros -> | now intros [= ->]].
  - match goal with
    | |- ?go kvs kvs' = true <-> _ =>
        assert (H : forall l', go kvs l' = true <-> kvs = l')
    end.
    { induction IH as [|[k x] kvs Hx _ IHkvs]; intros [|[k' y] l']; simpl;
        try (split; [discriminate | intros H; inversion H]);
        try (split; reflexivity).
      simpl in Hx.
      rewrite !andb_true_iff, String.eqb_eq, Hx, IHkvs.
      split; [now intros [[-> ->] ->] | now intros [= -> -> ->]]. }
    rewrite H. split; [now intros -> | now intros [= ->]].
Qed.

Lemma json_eqb_refl (a : json) : json_eqb a a = true.
Proof. now apply json_eqb_eq. Qed.

Lemma json_eqb_sym (a b : json) : json_eqb a b = json_eqb b a.
Proof.
  destruct (json_eqb a b) eqn:E1, (json_eqb b a) eqn:E2; try reflexivity.
  - apply json_eqb_eq in E1. subst. now rewrite json_eqb_refl in E2.
  - apply json_eqb_eq in E2. subst. now rewrite json_eqb_refl in E1.
Qed.

Lemma dict_get_in {K V} (eqb : K -> K -> bool) (k : K) (v : V) (d : dict K V) :
  dict_get eqb k d = Some v -> exists k', In (k', v) d /\ eqb k' k = true.
Proof.
  induction d as [|[k' v'] d IH]; simpl; [discriminate|].
  destruct (eqb k' k) eqn:Hk.
  - intros [= ->]. exists k'. split; [now left | exact Hk].
  - intros H. destruct (IH H) as (k2 & Hin & Hk2).
    exists k2. split; [now right | exact Hk2].
Qed.

Lemma dict_get_map_values {K V} (eqb : K -> K -> bool) (f : V -> V) (k : K)
    (d : dict K V) :
  dict_get eqb k (map (fun kv => (fst kv, f (snd kv))) d)
  = option_map f (dict_get eqb k d).
Proof.
  induction d as [|[k' v'] d IH]; simpl; [reflexivity|].
  destruct (eqb k' k); [reflexivity | exact IH].
Qed.

Lemma jstr_get_set (a b : string) (v : json) (d : existing_map) :
  dict_get Py.key_eqb (JStr b) (dict_set Py.key_eqb (JStr a) v d)
  = if String.eqb a b then Some v else dict_get Py.key_eqb (JStr b) d.
Proof.
  rewrite dict_get_set; [reflexivity| |].
  - intros k' H. apply key_eqb_str in H. now subst.
  - intros k' H H2. simpl in H2. apply String.eqb_eq in H2. now subst.
Qed.

Lemma unique_ids_in (d : existing_map) :
  unique_ids d = true ->
  forall k1 r1 k2 r2 a,
    In (k1, r1) d -> In (k2, r2) d -> k1 <> k2 ->
    record_field r1 "id" = Some a -> has_id a r2 = false.
Proof.
  induction d as [|[k r] d IH]; simpl; [intros _ ? ? ? ? ? []|].
  rewrite andb_true_iff. intros [Hhead Htail] k1 r1 k2 r2 a H1 H2 Hne Hid.
  destruct H1 as [[= <- <-]|H1], H2 as [[= <- <-]|H2].
  - congruence.
  - rewrite Hid in Hhead. rewrite forallb_forall in Hhead.
    specialize (Hhead (k2, r2) H2). simpl in Hhead.
    now apply negb_true_iff in Hhead.
  - unfold has_id. destruct (record_field r "id") as [a'|] eqn:Hr;
      [|reflexivity].
    rewrite forallb_forall in Hhead.
    specialize (Hhead (k1, r1) H1). simpl in Hhead.
    apply negb_true_iff in Hhead. unfold has_id in Hhead.
    rewrite Hid in Hhead. now rewrite json_eqb_sym.
  - now apply (IH Htail k1 r1 k2 r2 a).
Qed.

Lemma unique_ids_get (d : existing_map) :
  unique_ids d = true ->
  forall ip1 ip2 r1 r2 a,
    ip1 <> ip2 ->
    dict_get Py.key_eqb (JStr ip1) d = Some r1 ->
    dict_get Py.key_eqb (JStr ip2) d = Some r2 ->
    record_field r1 "id" = Some a -> has_id a r2 = false.
Proof.
  intros Hu ip1 ip2 r1 r2 a Hne H1 H2 Hid.
  apply dict_get_in in H1, H2.
  destruct H1 as (k1 & Hin1 & Hk1), H2 as (k2 & Hin2 & Hk2).
  apply key_eqb_str in Hk1, Hk2. subst k1 k2.
  apply (unique_ids_in d Hu (JStr ip1) r1 (JStr ip2) r2 a); auto.
  congruence.
Qed.

Lemma fresh_ids_get (new_id : request -> json) (writes : list request)
    (d : existing_map) :
  fresh_ids new_id writes d = true ->
  forall q ip r a,
    In q writes ->
    dict_get Py.key_eqb (JStr ip) d = Some r ->
    record_field r "id" = Some a ->
    json_eqb (new_id q) a = false.
Proof.
  unfold fresh_ids. rewrite forallb_forall. intros Hf q ip r a Hq Hget Hid.
  specialize (Hf q Hq). rewrite forallb_forall in Hf.
  apply dict_get_in in Hget. destruct Hget as (k & Hin & _).
  specialize (Hf (k, r) Hin). simpl in Hf. apply negb_true_iff in Hf.
  unfold has_id in Hf. rewrite Hid in Hf. now rewrite json_eqb_sym.
Qed.

(** *** What a completed pass has sent *)

Section CompletedPass.
Variable net : list request -> request -> result response.
Variables (cfg : config) (scheme : string) (token : json).

Lemma lift_ok_inv {A} (r : result A) (a : A) (log log' : list request) :
  lift r log = (Ok a, log') -> r = Ok a /\ log' = log.
Proof. unfold lift. intros [= -> ->]. now split. Qed.

Lemma write_ok_inv (q : request) (log log' : list request) (u : unit) :
  bind (send net q) (fun response => lift (raise_for_status response)) log
  = (Ok u, log') ->
  log' = log ++ [q].
Proof.
  intros H. apply bind_ok_inv in H. destruct H as (resp & log1 & Hs & Hl).
  unfold send in Hs. inversion Hs; subst log1.
  apply lift_ok_inv in Hl. now destruct Hl.
Qed.

Lemma sync_host_ok_inv (existing : existing_map) (s s' : summary)
    (item : string * host_info) (log log' : list request) :
  sync_host net cfg scheme token existing s item log = (Ok s', log') ->
  log' = log ++ spec_requests cfg scheme token (snd item)
                              (spec_action existing item)
  /\ forall current,
       spec_action existing item = Update current ->
       is_record current = true.
Proof.
  destruct item as [ip h]. unfold sync_host, spec_action; simpl fst; simpl snd.
  destruct (dict_get Py.key_eqb (JStr ip) existing) as [current|].
  - intros H. apply bind_ok_inv in H.
    destruct H as (changed & log1 & Hd & H).
    apply lift_ok_inv in Hd. destruct Hd as [Hd ->].
    destruct current as [| | | | |kvs]; try discriminate.
    rewrite differs_spec in Hd. injection Hd as <-.
    destruct (same_str _ (hi_mac h) && same_str _ (hi_hostname h)).
    + simpl in H. inversion H; subst. split; [now rewrite app_nil_r|].
      discriminate.
    + simpl negb in H. cbv iota in H.
      apply bind_ok_inv in H. destruct H as (aid & log2 & Hi & H).
      apply lift_ok_inv in Hi. destruct Hi as [Hi ->].
      simpl in Hi.
      destruct (dict_get String.eqb "id" kvs) as [a|] eqn:Hid;
        [|discriminate].
      injection Hi as ->.
      apply bind_ok_inv in H. destruct H as (u & log3 & Hu & H).
      apply write_ok_inv in Hu. inversion H; subst.
      split.
      * simpl. now rewrite Hid.
      * intros current [= <-]. unfold is_record; simpl. now rewrite Hid.
  - intros H. apply bind_ok_inv in H. destruct H as (u & log1 & Hu & H).
    apply write_ok_inv in Hu. inversion H; subst.
    split; [reflexivity | discriminate].
Qed.

Lemma sync_hosts_ok_inv (existing : existing_map)
    (items : list (string * host_info)) :
  forall s s' log log',
    sync_hosts net cfg scheme token existing items s log = (Ok s', log') ->
    log' = log ++ flat_map (fun item =>
                              spec_requests cfg scheme token (snd item)
                                            (spec_action existing item))
                           items
    /\ forall item current,
         In item items ->
         spec_action existing item = Update current ->
         is_record current = true.
Proof.
  induction items as [|item rest IH]; intros s s' log log' H.
  - inversion H; subst. split; [now rewrite app_nil_r | intros ? ? []].
  - cbn [sync_hosts] in H. apply bind_ok_inv in H.
    destruct H as (sm & lm & Hhost & Hrest).
    apply sync_host_ok_inv in Hhost. destruct Hhost as [-> Hrec].
    apply IH in Hrest. destruct Hrest as [-> Hrecs].
    split; [simpl; now rewrite app_assoc|].
    intros item' current [<-|Hin]; [apply Hrec | now apply Hrecs].
Qed.

(** Where every decision is a skip the pass sends nothing. *)
Lemma sync_hosts_all_skip (existing : existing_map)
    (items : list (string * host_info)) :
  (forall item, In item items -> spec_action existing item = Skip) ->
  forall s log,
    sync_hosts net cfg scheme token existing items s log
    = (Ok (Summary (created s) (updated s)
                   (skipped s + Z.of_nat (List.length items))),
       log).
Proof.
  induction items as [|[ip h] rest IH]; intros Hskip s log.
  - simpl. unfold ret. destruct s; simpl. now rewrite Z.add_0_r.
  - cbn [sync_hosts]. unfold bind at 1.
    assert (Hhost : sync_host net cfg scheme token existing s (ip, h) log
                    = (Ok (Summary (created s) (updated s) (skipped s + 1)),
                       log)).
    { specialize (Hskip (ip, h) (or_introl eq_refl)).
      unfold spec_action in Hskip; simpl in Hskip. unfold sync_host.
      destruct (dict_get Py.key_eqb (JStr ip) existing) as [current|];
        [|discriminate].
      destruct current as [| | | | |kvs]; try discriminate.
      unfold bind, lift. rewrite differs_spec.
      destruct (same_str _ (hi_mac h) && same_str _ (hi_hostname h));
        [reflexivity | discriminate]. }
    rewrite Hhost; unfold Ok at 1; cbv beta iota.
    rewrite IH by (intros item Hin; apply Hskip; now right).
    cbn [created updated skipped List.length].
    do 3 f_equal. lia.
Qed.
End CompletedPass.

(** *** The merger returns canonical host mappings *)

Lemma str_set_in {V} (k k' : string) (v v' : V) (d : dict string V) :
  In (k', v') (dict_set String.eqb k v d) ->
  In (k', v') d \/ (k' = k /\ v' = v).
Proof.
  induction d as [|[k0 v0] d IH]; simpl.
  - intros [[= <- <-]|[]]. now right.
  - destruct (String.eqb k0 k) eqn:Hk; simpl.
    + apply String.eqb_eq in Hk. subst k0.
      intros [[= <- <-]|H]; [now right | left; now right].
    + intros [H|H]; [left; now left|].
      destruct (IH H) as [Hin|Heq]; [left; now right | now right].
Qed.

Lemma hosts_wf_set (d : hosts_map) (h : host_info) :
  hosts_wf d -> hosts_wf (dict_set String.eqb (hi_ip h) h d).
Proof.
  intros [Hnd Hip]. split; [now apply str_set_NoDup|].
  intros ip h' Hin. apply str_set_in in Hin.
  destruct Hin as [Hin|[-> ->]]; [now apply Hip | reflexivity].
Qed.

Lemma for_each_invariant {A S} (body : S -> A -> result S) (I : S -> Prop) :
  (forall s x s', I s -> body s x = Ok s' -> I s') ->
  forall xs s s', I s -> for_each body xs s = Ok s' -> I s'.
Proof.
  intros Hstep xs; induction xs as [|x xs IH]; intros s s' Hs H; simpl in H.
  - now inversion H; subst.
  - destruct (body s x) as [e|s1] eqn:Hx; [discriminate|].
    simpl in H. apply (IH s1 s'); [|exact H]. now apply (Hstep s x).
Qed.

Lemma merge_sources_wf (leases arp : json) (hosts : hosts_map) :
  merge_sources leases arp = Ok hosts -> hosts_wf hosts.
Proof.
  unfold merge_sources. intros H.
  destruct (Py.iter arp) as [e|entries]; [discriminate|]. simpl in H.
  destruct (for_each merge_arp_entry entries []) as [e|hosts0] eqn:Harp;
    [discriminate|]. simpl in H.
  destruct (Py.iter leases) as [e|rows]; [discriminate|]. simpl in H.
  apply (for_each_invariant merge_lease hosts_wf) with (xs := rows)
                                                        (s := hosts0);
    [| |exact H].
  - intros d x d' Hd Hx. unfold merge_lease in Hx.
    destruct (Py.get_stripped x "address") as [e|ip]; [discriminate|].
    destruct (Py.get_stripped x "mac") as [e|mac]; [discriminate|].
    destruct (Py.get_stripped x "hostname") as [e|hn]; [discriminate|].
    simpl in Hx. destruct (PyStr.truthy ip); inversion Hx; subst; [|exact Hd].
    now apply (hosts_wf_set d (HostInfo ip mac hn)).
  - apply (for_each_invariant merge_arp_entry hosts_wf) with (xs := entries)
                                                             (s := []);
      [| |exact Harp].
    + intros d x d' Hd Hx. unfold merge_arp_entry in Hx.
      destruct (Py.get_stripped x "ip") as [e|ip]; [discriminate|].
      destruct (Py.get_stripped x "mac") as [e|mac]; [discriminate|].
      simpl in Hx. destruct (PyStr.truthy ip); inversion Hx; subst; [|exact Hd].
      now apply (hosts_wf_set d (HostInfo ip mac "")).
    + split; [constructor | intros ? ? []].
Qed.

(** *** The inventory after the writes of a pass *)

Lemma same_str_true (x : option json) (s : string) :
  same_str x s = true <-> x = Some (JStr s).
Proof.
  destruct x as [[| | |t| |]|]; simpl;
    try (split; [discriminate | intros H; inversion H]).
  rewrite String.eqb_eq. split; [now intros -> | now intros [= ->]].
Qed.

(** An update payload sets mac and hostname and keeps the identifier. *)
Lemma set_fields_update (kvs : list (string * json)) (mac hostname : string) :
  let r := set_fields [("mac", JStr mac); ("hostname", JStr hostname)]
                      (JObj kvs) in
  record_field r "mac" = Some (JStr mac)
  /\ record_field r "hostname" = Some (JStr hostname)
  /\ record_field r "id" = record_field (JObj kvs) "id".
Proof.
  simpl. rewrite !str_get_set. simpl. repeat split; reflexivity.
Qed.

Section Reflect.
Variables (cfg : config) (scheme : string) (token : json).
Variable existing : existing_map.
Variable new_id : request -> json.

Hypothesis existing_unique : unique_ids existing = true.

Local Abbreviation writes_of := (writes_for cfg scheme token existing).

Lemma matched_same_lookup (inv inv' : existing_map) (ip : string)
    (h : host_info) :
  dict_get Py.key_eqb (JStr ip) inv' = dict_get Py.key_eqb (JStr ip) inv ->
  matched existing inv ip h -> matched existing inv' ip h.
Proof.
  intros Hsame (r & Hget & Hm). exists r. split; [congruence | exact Hm].
Qed.

(** Applying the writes for one more host keeps the inventory a reflection
    of the hosts dealt with. *)
Lemma reflects_step (done : list (string * host_info)) (inv : existing_map)
    (ip : string) (h : host_info) :
  reflects existing done inv ->
  ~ In ip (map fst done) ->
  hi_ip h = ip ->
  (forall current,
      spec_action existing (ip, h) = Update current ->
      is_record current = true) ->
  (forall q ip' r' a,
      In q (writes_of (ip, h)) ->
      dict_get Py.key_eqb (JStr ip') existing = Some r' ->
      record_field r' "id" = Some a ->
      json_eqb (new_id q) a = false) ->
  reflects existing (done ++ [(ip, h)])
           (fold_left (apply_write new_id) (writes_of (ip, h)) inv).
Proof.
  intros [Hrest Hdone] Hnew Hip Hrec Hfresh.
  assert (Hother : forall ip0 h0, In (ip0, h0) done -> ip0 <> ip).
  { intros ip0 h0 Hin ->. apply Hnew. apply in_map_iff.
    now exists (ip, h0). }
  assert (Hsplit : forall ip0, ~ In ip0 (map fst (done ++ [(ip, h)])) ->
                               ~ In ip0 (map fst done) /\ ip0 <> ip).
  { intros ip0 H. rewrite map_app, in_app_iff in H. simpl in H.
    split; [tauto | intros ->; tauto]. }
  unfold writes_of, spec_action in *; simpl fst in *; simpl snd in *.
  destruct (dict_get Py.key_eqb (JStr ip) existing) as [current|] eqn:Hcur.
  - destruct (same_str (record_field current "mac") (hi_mac h)
              && same_str (record_field current "hostname") (hi_hostname h))
      eqn:Hsame.
    + (* skip: nothing is written *)
      simpl. split.
      * intros ip0 H0. apply Hrest. now apply Hsplit.
      * intros ip0 h0 Hin. apply in_app_or in Hin.
        destruct Hin as [Hin|[[= <- <-]|[]]]; [now apply Hdone|].
        apply andb_true_iff in Hsame. destruct Hsame as [Hm Hh].
        apply same_str_true in Hm, Hh.
        exists current. rewrite (Hrest ip Hnew).
        repeat split; [exact Hcur | exact Hm | exact Hh|].
        intros ip' r' a Hne Hget Hid.
        now apply (unique_ids_get existing existing_unique ip' ip r' current a).
    + (* update *)
      specialize (Hrec current eq_refl). unfold is_record in Hrec.
      destruct (record_field current "id") as [aid|] eqn:Hid; [|discriminate].
      destruct current as [| | | | |kvs]; try discriminate.
      unfold spec_requests. rewrite Hid.
      cbn [fold_left apply_write req_method req_url req_json].
      set (f := fun r => if has_id aid r
                         then set_fields [("mac", JStr (hi_mac h));
                                          ("hostname", JStr (hi_hostname h))]
                                         r
                         else r).
      assert (Hlook : forall k,
                 dict_get Py.key_eqb k
                   (map (fun kv : json * json =>
                           (fst kv,
                            if has_id aid (snd kv)
                            then set_fields
                                   [("mac", JStr (hi_mac h));
                                    ("hostname", JStr (hi_hostname h))]
                                   (snd kv)
                            else snd kv)) inv)
                 = option_map f (dict_get Py.key_eqb k inv)).
      { intros k. apply (dict_get_map_values Py.key_eqb f). }
      split.
      * intros ip0 H0. apply Hsplit in H0. destruct H0 as [H0 Hne].
        rewrite Hlook, (Hrest ip0 H0).
        destruct (dict_get Py.key_eqb (JStr ip0) existing) as [r0|] eqn:Hr0;
          [|reflexivity].
        simpl. unfold f.
        rewrite (unique_ids_get existing existing_unique ip ip0 (JObj kvs) r0
                   aid); auto.
      * intros ip0 h0 Hin. apply in_app_or in Hin.
        destruct Hin as [Hin|[[= <- <-]|[]]].
        -- destruct (Hdone ip0 h0 Hin) as (r0 & Hget & Hm & Hh & Hforeign).
           exists r0. rewrite Hlook, Hget. simpl. unfold f.
           rewrite (Hforeign ip (JObj kvs) aid); auto.
           intros ->. now apply (Hother ip0 h0).
        -- exists (f (JObj kvs)). rewrite Hlook, (Hrest ip Hnew), Hcur.
           split; [reflexivity|].
           unfold f, has_id. rewrite Hid, json_eqb_refl.
           destruct (set_fields_update kvs (hi_mac h) (hi_hostname h))
             as (Hm & Hh & Hi).
           repeat split; [exact Hm | exact Hh|].
           intros ip' r' a Hne Hget Hid'. unfold has_id.
           rewrite Hi, Hid.
           pose proof (unique_ids_get existing existing_unique ip' ip r'
                         (JObj kvs) a Hne Hget Hcur Hid') as Hu.
           unfold has_id in Hu. now rewrite Hid in Hu.
  - (* create *)
    cbn [spec_requests fold_left apply_write req_method req_url req_json].
    simpl dict_get.
    match goal with |- context [new_id ?q] => set (q0 := q) end.
    rewrite Hip. split.
    + intros ip0 H0. apply Hsplit in H0. destruct H0 as [H0 Hne].
      rewrite jstr_get_set.
      destruct (String.eqb ip ip0) eqn:E;
        [apply String.eqb_eq in E; congruence | now apply Hrest].
    + intros ip0 h0 Hin. apply in_app_or in Hin.
      destruct Hin as [Hin|[[= <- <-]|[]]].
      * apply (matched_same_lookup inv); [|now apply Hdone].
        rewrite jstr_get_set.
        destruct (String.eqb ip ip0) eqn:E; [|reflexivity].
        apply String.eqb_eq in E. exfalso. now apply (Hother ip0 h0).
      * eexists. rewrite jstr_get_set, String.eqb_refl.
        split; [reflexivity|]. repeat split.
        intros ip' r' a Hne Hget Hid'. unfold has_id; simpl.
        apply (Hfresh q0 ip' r' a); [now left | exact Hget | exact Hid'].
Qed.

Lemma reflects_run (todo : list (string * host_info)) :
  forall (done : list (string * host_info)) (inv : existing_map),
    reflects existing done inv ->
    NoDup (map fst (done ++ todo)) ->
    (forall ip h, In (ip, h) todo -> hi_ip h = ip) ->
    (forall item current,
        In item todo ->
        spec_action existing item = Update current ->
        is_record current = true) ->
    (forall item q ip' r' a,
        In item todo -> In q (writes_of item) ->
        dict_get Py.key_eqb (JStr ip') existing = Some r' ->
        record_field r' "id" = Some a ->
        json_eqb (new_id q) a = false) ->
    reflects existing (done ++ todo)
             (fold_left (apply_write new_id) (flat_map writes_of todo) inv).
Proof.
  induction todo as [|[ip h] rest IH]; intros done inv Hinv Hnd Hip Hrec Hfresh.
  - simpl. now rewrite app_nil_r.
  - cbn [flat_map]. rewrite fold_left_app.
    replace (done ++ (ip, h) :: rest) with ((done ++ [(ip, h)]) ++ rest)
      in * by (now rewrite <- app_assoc).
    apply IH.
    + apply reflects_step; [exact Hinv| | | |].
      * rewrite <- app_assoc, map_app in Hnd. simpl in Hnd.
        apply NoDup_remove_2 in Hnd. intros Hin. apply Hnd.
        apply in_or_app. now left.
      * apply Hip. now left.
      * intros current. apply (Hrec (ip, h)). now left.
      * intros q ip' r' a. apply (Hfresh (ip, h)). now left.
    + exact Hnd.
    + intros ip0 h0 Hin. apply Hip. now right.
    + intros item current Hin. apply Hrec. now right.
    + intros item q ip' r' a Hin. apply Hfresh. now right.
Qed.

Lemma matched_skip (inv : existing_map) (ip : string) (h : host_info) :
  matched existing inv ip h -> spec_action inv (ip, h) = Skip.
Proof.
  intros (r & Hget & Hm & Hh & _). unfold spec_action; simpl.
  rewrite Hget, Hm, Hh. simpl. now rewrite !String.eqb_refl.
Qed.

End Reflect.

(** C3: let a first pass over the merged hosts complete, and let the remote
    inventory then hold exactly what that pass wrote (identifiers being
    unique, and those of new records new).  A second pass over the same
    hosts against that inventory sends nothing and counts every host as
    skipped, none as created or updated. *)
Theorem second_run_is_noop
    (net net2 : list request -> request -> result response)
    (cfg : config) (scheme : string) (token token2 : json)
    (leases arp : json) (hosts : hosts_map)
    (existing : existing_map) (new_id : request -> json)
    (s1 : summary) (log writes log2 : list request) :
  merge_sources leases arp = Ok hosts ->
  sync_hosts net cfg scheme token existing hosts (Summary 0 0 0) log
  = (Ok s1, log ++ writes) ->
  unique_ids existing = true ->
  fresh_ids new_id writes existing = true ->
  sync_hosts net2 cfg scheme token2
             (fold_left (apply_write new_id) writes existing)
             hosts (Summary 0 0 0) log2
  = (Ok (Summary 0 0 (Z.of_nat (List.length hosts))), log2).
Proof.
  intros Hmerge Hrun Hunique Hfresh.
  apply merge_sources_wf in Hmerge. destruct Hmerge as [Hnd Hip].
  apply sync_hosts_ok_inv in Hrun. destruct Hrun as [Hlog Hrec].
  apply app_inv_head in Hlog. subst writes.
  pose proof (reflects_run cfg scheme token existing new_id Hunique hosts []
                existing) as Hrefl.
  simpl in Hrefl.
  assert (Hfinal : reflects existing hosts
                     (fold_left (apply_write new_id)
                        (flat_map (fun item =>
                                     spec_requests cfg scheme token (snd item)
                                       (spec_action existing item)) hosts)
                        existing)).
  { apply Hrefl.
    - split; [reflexivity | intros ? ? []].
    - exact Hnd.
    - exact Hip.
    - exact Hrec.
    - intros item q ip' r' a Hitem Hq Hget Hid.
      apply (fresh_ids_get new_id _ existing Hfresh q ip' r' a);
        [|exact Hget|exact Hid].
      apply in_flat_map. now exists item. }
  rewrite sync_hosts_all_skip; [reflexivity|].
  intros [ip h] Hin. apply (matched_skip existing).
  destruct Hfinal as [_ Hdone]. now apply Hdone.
Qed.

(** ** The theorems at work on the sample data *)

Lemma net_ok_accepts_writes : accepts_writes net_ok.
Proof. intros log r _. eexists. split; reflexivity. Defined.

Lemma net_not_found_accepts_writes : accepts_writes net_not_found.
Proof.
  intros log r Hw. unfold net_not_found, is_write in *.
  destruct (req_url r); try discriminate; eexists; split; reflexivity.
Defined.

Lemma sample_records_have_id :
  forall ip h current,
    In (ip, h) sample_hosts ->
    dict_get Py.key_eqb (JStr ip) sample_existing = Some current ->
    is_record current = true.
Proof.
  intros ip h current Hin.
  repeat (destruct Hin as [[= <- <-]|Hin]; [simpl; intros [= <-]; reflexivity
                                          || (simpl; discriminate)|]).
  destruct Hin.
Defined.

Lemma sync_hosts_decisions_witness :
  accepts_writes net_ok
  /\ (forall ip h current,
        In (ip, h) sample_hosts ->
        dict_get Py.key_eqb (JStr ip) sample_existing = Some current ->
        is_record current = true)
  /\ sync_hosts net_ok sample_config "https" sample_token sample_existing
                sample_hosts (Summary 0 0 0) []
     = (Ok (fold_left bump (map (spec_action sample_existing) sample_hosts)
                      (Summary 0 0 0)),
        [] ++ flat_map (fun item =>
                          spec_requests sample_config "https" sample_token
                                        (snd item)
                                        (spec_action sample_existing item))
                       sample_hosts).
Proof.
  split; [exact net_ok_accepts_writes|].
  split; [exact sample_records_have_id|].
  apply (sync_hosts_decisions net_ok sample_config "https" sample_token
           sample_existing sample_hosts (Summary 0 0 0) []
           net_ok_accepts_writes sample_records_have_id).
Defined.

Lemma merge_sources_lease_precedence_witness :
  Forall (fun e => is_lease e = true) sample_leases
  /\ Forall (fun e => is_arp_entry e = true) sample_arp
  /\ exists hosts,
       merge_sources (JArr sample_leases) (JArr sample_arp) = Ok hosts
       /\ NoDup (dict_keys hosts)
       /\ forall ip,
            dict_get String.eqb ip hosts
            = if PyStr.truthy ip then
                match last_with_ip ip (map lease_host sample_leases) with
                | Some l => Some l
                | None => last_with_ip ip (map arp_host sample_arp)
                end
              else None.
Proof.
  assert (Hl : Forall (fun e => is_lease e = true) sample_leases)
    by (repeat constructor).
  assert (Ha : Forall (fun e => is_arp_entry e = true) sample_arp)
    by (repeat constructor).
  split; [exact Hl|]. split; [exact Ha|].
  exact (merge_sources_lease_precedence sample_leases sample_arp Hl Ha).
Defined.

Lemma second_run_is_noop_witness :
  merge_sources (JArr sample_leases) (JArr sample_arp) = Ok sample_hosts
  /\ sync_hosts net_ok sample_config "https" sample_token sample_existing
                sample_hosts (Summary 0 0 0) []
     = (Ok (Summary 1 1 1), [] ++ sample_writes)
  /\ unique_ids sample_existing = true
  /\ fresh_ids sample_new_id sample_writes sample_existing = true
  /\ sync_hosts net_ok sample_config "https" sample_token
                (fold_left (apply_write sample_new_id) sample_writes
                           sample_existing)
                sample_hosts (Summary 0 0 0) []
     = (Ok (Summary 0 0 (Z.of_nat (List.length sample_hosts))), []).
Proof.
  assert (H1 : merge_sources (JArr sample_leases) (JArr sample_arp)
               = Ok sample_hosts) by reflexivity.
  assert (H2 : sync_hosts net_ok sample_config "https" sample_token
                 sample_existing sample_hosts (Summary 0 0 0) []
               = (Ok (Summary 1 1 1), [] ++ sample_writes)) by reflexivity.
  assert (H3 : unique_ids sample_existing = true) by reflexivity.
  assert (H4 : fresh_ids sample_new_id sample_writes sample_existing = true)
    by reflexivity.
  repeat (split; [assumption|]).
  exact (second_run_is_noop net_ok net_ok sample_config "https" sample_token
           sample_token (JArr sample_leases) (JArr sample_arp) sample_hosts
           sample_existing sample_new_id (Summary 1 1 1) [] sample_writes []
           H1 H2 H3 H4).
Defined.

Lemma sync_hosts_counts_witness :
  sync_hosts net_ok sample_config "https" sample_token sample_existing
             sample_hosts (Summary 0 0 0) []
  = (Ok (Summary 1 1 1), sample_writes)
  /\ 0 <= created (Summary 1 1 1) /\ 0 <= updated (Summary 1 1 1)
  /\ 0 <= skipped (Summary 1 1 1)
  /\ created (Summary 1 1 1) + updated (Summary 1 1 1)
     + skipped (Summary 1 1 1)
     = Z.of_nat (List.length sample_hosts).
Proof.
  assert (H : sync_hosts net_ok sample_config "https" sample_token
                sample_existing sample_hosts (Summary 0 0 0) []
              = (Ok (Summary 1 1 1), sample_writes)) by reflexivity.
  split; [exact H|].
  exact (sync_hosts_counts net_ok sample_config "https" sample_token
           sample_existing sample_hosts (Summary 1 1 1) [] sample_writes H).
Defined.

Lemma sample_existing_more_agrees :
  forall ip h,
    In (ip, h) sample_hosts ->
    dict_get Py.key_eqb (JStr ip) sample_existing_more
    = dict_get Py.key_eqb (JStr ip) sample_existing.
Proof.
  intros ip h Hin.
  repeat (destruct Hin as [[= <- <-]|Hin]; [reflexivity|]).
  destruct Hin.
Defined.

Lemma sync_hosts_frame_witness :
  (forall ip h,
      In (ip, h) sample_hosts ->
      dict_get Py.key_eqb (JStr ip) sample_existing_more
      = dict_get Py.key_eqb (JStr ip) sample_existing)
  /\ sync_hosts net_ok sample_config "https" sample_token
                sample_existing_more sample_hosts (Summary 0 0 0) []
     = sync_hosts net_ok sample_config "https" sample_token sample_existing
                  sample_hosts (Summary 0 0 0) []
  /\ exists sent,
       snd (sync_hosts net_ok sample_config "https" sample_token
                       sample_existing sample_hosts (Summary 0 0 0) [])
       = [] ++ sent
       /\ forall q, In q sent ->
            exists item, In item sample_hosts
              /\ In q (spec_requests sample_config "https" sample_token
                                     (snd item)
                                     (spec_action sample_existing item)).
Proof.
  split; [exact sample_existing_more_agrees|].
  exact (sync_hosts_frame net_ok sample_config "https" sample_token
           sample_existing sample_existing_more sample_hosts (Summary 0 0 0)
           [] sample_existing_more_agrees).
Defined.

Lemma not_found_inventory_creates_all_witness :
  net_not_found [] (inventory_request sample_config "https" sample_token)
  = Ok (Response 404 None)
  /\ status_code (Response 404 None) = 404
  /\ accepts_writes net_not_found
  /\ addresses_of_response (Response 404 None) = Ok []
  /\ bind (get_subnet_addresses net_not_found
             (phpipam_host sample_config) (phpipam_app_id sample_config)
             (phpipam_subnet_id sample_config) sample_token "https")
          (fun existing =>
             sync_hosts net_not_found sample_config "https" sample_token
                        existing sample_hosts (Summary 0 0 0)) []
     = (Ok (Summary (created (Summary 0 0 0)
                     + Z.of_nat (List.length sample_hosts))
                    (updated (Summary 0 0 0)) (skipped (Summary 0 0 0))),
        [] ++ inventory_request sample_config "https" sample_token
           :: flat_map (fun item =>
                          spec_requests sample_config "https" sample_token
                                        (snd item) Create)
                       sample_hosts).
Proof.
  split; [reflexivity|]. split; [reflexivity|].
  split; [exact net_not_found_accepts_writes|].
  exact (not_found_inventory_creates_all net_not_found sample_config "https"
           sample_token sample_hosts (Summary 0 0 0) [] (Response 404 None)
           eq_refl eq_refl net_not_found_accepts_writes).
Defined.

Lemma inventory_ignores_records_without_ip_witness :
  status_code (Response 200 (Some sample_inventory)) <> 404
  /\ raise_for_status (Response 200 (Some sample_inventory)) = Ok tt
  /\ response_json (Response 200 (Some sample_inventory)) = Ok sample_inventory
  /\ ((Py.get sample_inventory "data" = Ok None
       \/ Py.get sample_inventory "data" = Ok (Some JNull)) ->
      addresses_of_response (Response 200 (Some sample_inventory)) = Ok [])
  /\ forall records,
       Py.get sample_inventory "data" = Ok (Some (JArr records)) ->
       addresses_of_response (Response 200 (Some sample_inventory))
       = for_each index_address
                  (filter (fun r => negb (no_ip r)) records) []
       /\ forall existing ip,
            addresses_of_response (Response 200 (Some sample_inventory))
            = Ok existing ->
            (forall r, In r records ->
                       record_field r "ip" = Some (JStr ip) ->
                       no_ip r = true) ->
            dict_get Py.key_eqb (JStr ip) existing = None
            /\ forall cfg scheme token s h,
                 sync_host net_ok cfg scheme token existing s (ip, h)
                 = bind (create_address net_ok (phpipam_host cfg)
                           (phpipam_app_id cfg) (phpipam_subnet_id cfg)
                           h token scheme)
                        (fun _ => ret (Summary (created s + 1) (updated s)
                                               (skipped s))).
Proof.
  assert (H1 : status_code (Response 200 (Some sample_inventory)) <> 404)
    by (simpl; lia).
  split; [exact H1|]. split; [reflexivity|]. split; [reflexivity|].
  exact (inventory_ignores_records_without_ip net_ok
           (Response 200 (Some sample_inventory)) sample_inventory
           H1 eq_refl eq_refl).
Defined.

(** * Further properties of the module *)

(** ** Trimming *)

Lemma lstrip_cases (s : string) :
  PyStr.lstrip s = ""
  \/ exists c t, PyStr.lstrip s = String c t /\ PyStr.isspace c = false.
Proof.
  induction s as [|c s IH]; simpl; [now left|].
  destruct (PyStr.isspace c) eqn:Hc; [exact IH|].
  right. now exists c, s.
Qed.

Lemma rstrip_head (c : ascii) (s : string) :
  PyStr.isspace c = false ->
  PyStr.rstrip (String c s) = String c (PyStr.rstrip s).
Proof.
  intros Hc. simpl. rewrite Hc. now destruct (PyStr.rstrip s).
Qed.

Lemma rstrip_cons (c : ascii) (s : string) :
  PyStr.rstrip (String c s)
  = match PyStr.rstrip s with
    | EmptyString =>
        if PyStr.isspace c then EmptyString else String c EmptyString
    | String d r => String c (String d r)
    end.
Proof. reflexivity. Qed.

Lemma rstrip_idem (s : string) :
  PyStr.rstrip (PyStr.rstrip s) = PyStr.rstrip s.
Proof.
  induction s as [|c s IH]; [reflexivity|].
  rewrite rstrip_cons. destruct (PyStr.rstrip s) as [|d r] eqn:Hr.
  - destruct (PyStr.isspace c) eqn:Hc; [reflexivity|].
    simpl. now rewrite Hc.
  - rewrite rstrip_cons, IH. reflexivity.
Qed.

Lemma strip_idem (s : string) : PyStr.strip (PyStr.strip s) = PyStr.strip s.
Proof.
  unfold PyStr.strip.
  destruct (lstrip_cases s) as [->|(c & t & -> & Hc)]; [reflexivity|].
  rewrite (rstrip_head c t Hc). simpl PyStr.lstrip. rewrite Hc.
  rewrite <- (rstrip_head c t Hc). apply rstrip_idem.
Qed.

(** ** Configuration *)

(** X1: [get_env] returns the trimmed value of the variable, which is then
    neither empty nor padded with whitespace, when that value is not blank;
    it raises the error naming the variable when the variable is missing,
    empty or all whitespace. *)
Theorem get_env_trimmed_or_raises (env : environment) (name : string) :
  (forall v, get_env env name = Ok v ->
             v = PyStr.strip (environ_get env name "")
             /\ trimmed_nonblank v)
  /\ (PyStr.strip (environ_get env name "") = "" ->
      get_env env name = Raise (not_set name))
  /\ (PyStr.strip (environ_get env name "") <> "" ->
      get_env env name = Ok (PyStr.strip (environ_get env name ""))).
Proof.
  destruct (get_env_cases env name) as [[Hb Hg]|[Hb Hg]]; rewrite Hg.
  - split; [discriminate|]. split; [reflexivity | congruence].
  - split; [|split; [congruence | reflexivity]].
    intros v [= <-]. split; [reflexivity|].
    split; [exact Hb | apply strip_idem].
Qed.

Lemma get_env_ok_inv (env : environment) (name v : string) :
  get_env env name = Ok v ->
  v = PyStr.strip (environ_get env name "") /\ trimmed_nonblank v.
Proof.
  destruct (get_env_cases env name) as [[Hb Hg]|[Hb Hg]]; rewrite Hg;
    [discriminate|].
  intros [= <-]. split; [reflexivity|]. split; [exact Hb | apply strip_idem].
Qed.

Lemma str_in_two (s a b : string) :
  str_in s [a; b] = true -> s = a \/ s = b.
Proof.
  unfold str_in; simpl. rewrite !orb_true_iff, !String.eqb_eq.
  intros [H|[H|H]]; [now left | now right | discriminate].
Qed.

(** What a successful [load_config] went through. *)
Lemma load_config_ok_inv (env : environment) (cfg : config) :
  load_config env = Ok cfg ->
  scheme_allowed env = true
  /\ get_env env "OPNSENSE_HOST" = Ok (opnsense_host cfg)
  /\ get_env env "OPNSENSE_KEY" = Ok (opnsense_key cfg)
  /\ get_env env "OPNSENSE_SECRET" = Ok (opnsense_secret cfg)
  /\ get_env env "PHPIPAM_HOST" = Ok (phpipam_host cfg)
  /\ get_env env "PHPIPAM_APP_ID" = Ok (phpipam_app_id cfg)
  /\ get_env env "PHPIPAM_APP_CODE" = Ok (phpipam_app_code cfg)
  /\ get_env env "PHPIPAM_SUBNET_ID" = Ok (phpipam_subnet_id cfg)
  /\ phpipam_scheme cfg
     = Some (PyStr.lower
               (PyStr.strip (environ_get env "PHPIPAM_SCHEME" "https")))
  /\ opnsense_verify_ssl cfg
     = Some (if negb (str_in (verify_raw env) ["false"; "0"; "no"])
                && isfile env (verify_raw env)
             then VerifyPath (verify_raw env)
             else VerifyBool
                    (negb (str_in (verify_raw env) ["false"; "0"; "no"]))).
Proof.
  unfold load_config, scheme_allowed. fold (verify_raw env).
  destruct (str_in (PyStr.lower (PyStr.strip
              (environ_get env "PHPIPAM_SCHEME" "https"))) ["http"; "https"]);
    [|discriminate].
  cbn [negb].
  destruct (get_env env "OPNSENSE_HOST") as [e|v1]; [discriminate|].
  destruct (get_env env "OPNSENSE_KEY") as [e|v2]; [discriminate|].
  destruct (get_env env "OPNSENSE_SECRET") as [e|v3]; [discriminate|].
  destruct (get_env env "PHPIPAM_HOST") as [e|v4]; [discriminate|].
  destruct (get_env env "PHPIPAM_APP_ID") as [e|v5]; [discriminate|].
  destruct (get_env env "PHPIPAM_APP_CODE") as [e|v6]; [discriminate|].
  destruct (get_env env "PHPIPAM_SUBNET_ID") as [e|v7]; [discriminate|].
  rewrite !rbind_ok. intros [= <-]. simpl. repeat split; reflexivity.
Qed.

(** X2: a configuration that [load_config] returns has every required
    setting filled in and trimmed, and its scheme is http or https: no
    required field is ever defaulted. *)
Theorem load_config_fields_filled (env : environment) (cfg : config) :
  load_config env = Ok cfg ->
  trimmed_nonblank (opnsense_host cfg)
  /\ trimmed_nonblank (opnsense_key cfg)
  /\ trimmed_nonblank (opnsense_secret cfg)
  /\ trimmed_nonblank (phpipam_host cfg)
  /\ trimmed_nonblank (phpipam_app_id cfg)
  /\ trimmed_nonblank (phpipam_app_code cfg)
  /\ trimmed_nonblank (phpipam_subnet_id cfg)
  /\ (phpipam_scheme cfg = Some "http" \/ phpipam_scheme cfg = Some "https")
  /\ opnsense_verify_ssl cfg <> None.
Proof.
  intros H. apply load_config_ok_inv in H.
  destruct H as (Hs & H1 & H2 & H3 & H4 & H5 & H6 & H7 & Hscheme & Hv).
  split; [exact (proj2 (get_env_ok_inv _ _ _ H1))|].
  split; [exact (proj2 (get_env_ok_inv _ _ _ H2))|].
  split; [exact (proj2 (get_env_ok_inv _ _ _ H3))|].
  split; [exact (proj2 (get_env_ok_inv _ _ _ H4))|].
  split; [exact (proj2 (get_env_ok_inv _ _ _ H5))|].
  split; [exact (proj2 (get_env_ok_inv _ _ _ H6))|].
  split; [exact (proj2 (get_env_ok_inv _ _ _ H7))|].
  split.
  - rewrite Hscheme. unfold scheme_allowed in Hs.
    destruct (str_in_two _ _ _ Hs) as [->| ->]; [now left | now right].
  - now rewrite Hv.
Qed.

(** X3: in a configuration that [load_config] returns, TLS verification is
    off exactly when [OPNSENSE_VERIFY_SSL], trimmed and lower-cased, is
    false, 0 or no; a CA bundle is used only when the setting names an
    existing file. *)
Theorem load_config_verify_ssl (env : environment) (cfg : config) :
  load_config env = Ok cfg ->
  (opnsense_verify_ssl cfg = Some (VerifyBool false)
   <-> str_in (verify_raw env) ["false"; "0"; "no"] = true)
  /\ (forall path,
        opnsense_verify_ssl cfg = Some (VerifyPath path) ->
        path = verify_raw env /\ isfile env path = true)
  /\ (str_in (verify_raw env) ["false"; "0"; "no"] = false ->
      isfile env (verify_raw env) = false ->
      opnsense_verify_ssl cfg = Some (VerifyBool true)).
Proof.
  intros H. apply load_config_ok_inv in H.
  destruct H as (_ & _ & _ & _ & _ & _ & _ & _ & _ & Hv). rewrite Hv.
  destruct (str_in (verify_raw env) ["false"; "0"; "no"]); simpl.
  - split; [tauto|]. split; [discriminate | discriminate].
  - destruct (isfile env (verify_raw env)) eqn:Hf.
    + split; [split; discriminate|].
      split; [intros path [= <-]; now split | discriminate].
    + split; [split; discriminate|].
      split; [discriminate | reflexivity].
Qed.

(** [load_config] raises nothing but the error for a required variable or
    the scheme error. *)
Lemma load_config_raises (env : environment) (e : exn) :
  load_config env = Raise e ->
  e = bad_scheme \/ exists name, In name required_names /\ e = not_set name.
Proof.
  unfold load_config.
  destruct (str_in _ ["http"; "https"]); cbn [negb];
    [|intros [= <-]; now left].
  intros H. right.
  repeat
    match type of H with
    | context [get_env env ?n] =>
        let Hb := fresh "Hb" in
        let Hg := fresh "Hg" in
        destruct (get_env_cases env n) as [[Hb Hg]|[Hb Hg]];
        rewrite Hg in H;
        [injection H as <-; exists n; split; [simpl; tauto | reflexivity]
        | rewrite rbind_ok in H]
    end.
  discriminate.
Qed.

(** X4: when [load_config] fails, [main] sends no request and does not end
    with status 0; the failure is the scheme error or the error naming a
    required variable. *)
Theorem main_without_config_sends_nothing
    (net : list request -> request -> result response)
    (env : environment) (e : exn) :
  load_config env = Raise e ->
  proc_requests (main net env) = []
  /\ proc_end (main net env) <> Exit 0
  /\ (e = bad_scheme
      \/ exists name, In name required_names /\ e = not_set name).
Proof.
  intros H. split; [|split; [|exact (load_config_raises env e H)]];
    unfold main; rewrite H; unfold Raise; destruct e;
      simpl; congruence.
Qed.

(** ** The HTTP helpers *)

Section Helpers.
Variable net : list request -> request -> result response.
Variables (host key secret app_id app_code subnet_id scheme : string).
Variables (v : verify) (token address_id : json) (h : host_info).
Variable log : list request.

Ltac run_helper :=
  unfold fetch_dhcp_leases, fetch_arp_table, phpipam_authenticate,
    get_subnet_addresses, create_address, update_address,
    bind, send, lift, ret;
  try match goal with
    | |- context [net log ?q] => destruct (net log q) as [e|resp]
    end.

(** X5: each helper sends exactly one request, whatever the answer and
    whether or not it then raises: nothing is retried and nothing is sent
    twice. *)
Theorem helpers_send_one_request :
  snd (fetch_dhcp_leases net host key secret v log)
  = log ++ [leases_request host key secret v]
  /\ snd (fetch_arp_table net host key secret v log)
     = log ++ [arp_request host key secret v]
  /\ snd (phpipam_authenticate net host app_id app_code scheme log)
     = log ++ [auth_request host app_id app_code scheme]
  /\ snd (get_subnet_addresses net host app_id subnet_id token scheme log)
     = log ++ [Request GET (SubnetAddressesUrl scheme host app_id subnet_id)
                       None (Some token) None None]
  /\ snd (create_address net host app_id subnet_id h token scheme log)
     = log ++ [create_request host app_id subnet_id h token scheme]
  /\ snd (update_address net host app_id address_id h token scheme log)
     = log ++ [update_request host app_id address_id h token scheme].
Proof.
  repeat split; run_helper; simpl;
    repeat (first [ reflexivity
                  | match goal with
                    | |- context [match ?x with _ => _ end] => destruct x
                    end ]).
Qed.

Lemma error_status_raises (resp : response) :
  is_error_status (status_code resp) = true ->
  raise_for_status resp = Raise (HTTPError (status_code resp)).
Proof. unfold raise_for_status, is_error_status. now intros ->. Qed.

(** X6: when the answer carries a 4xx or 5xx status, every helper raises
    the HTTP error for that status without reading the body; the one
    exception is the 404 of the inventory request. *)
Theorem helpers_raise_on_error_status (resp : response) :
  (forall q, net log q = Ok resp) ->
  is_error_status (status_code resp) = true ->
  fst (fetch_dhcp_leases net host key secret v log)
  = Raise (HTTPError (status_code resp))
  /\ fst (fetch_arp_table net host key secret v log)
     = Raise (HTTPError (status_code resp))
  /\ fst (phpipam_authenticate net host app_id app_code scheme log)
     = Raise (HTTPError (status_code resp))
  /\ fst (create_address net host app_id subnet_id h token scheme log)
     = Raise (HTTPError (status_code resp))
  /\ fst (update_address net host app_id address_id h token scheme log)
     = Raise (HTTPError (status_code resp))
  /\ fst (get_subnet_addresses net host app_id subnet_id token scheme log)
     = if status_code resp =? 404 then Ok []
       else Raise (HTTPError (status_code resp)).
Proof.
  intros Hnet Hst. pose proof (error_status_raises resp Hst) as Hraise.
  repeat split;
    unfold fetch_dhcp_leases, fetch_arp_table, phpipam_authenticate,
      get_subnet_addresses, create_address, update_address,
      bind, send, lift, ret;
    rewrite Hnet; unfold Ok at 1; cbv beta iota;
    try (rewrite Hraise; reflexivity).
  unfold addresses_of_response.
  destruct (status_code resp =? 404); [reflexivity|].
  now rewrite Hraise.
Qed.

(** X7: what [fetch_arp_table] returns is always a list: the body when the
    body is a list, the empty list for any other JSON body. *)
Theorem fetch_arp_table_returns_list (result : json) (log' : list request) :
  fetch_arp_table net host key secret v log = (Ok result, log') ->
  exists resp data,
    net log (arp_request host key secret v) = Ok resp
    /\ raise_for_status resp = Ok tt
    /\ body resp = Some data
    /\ result = JArr (match data with JArr xs => xs | _ => [] end).
Proof.
  unfold fetch_arp_table, bind, send, lift, ret.
  fold (arp_request host key secret v).
  destruct (net log _) as [e|resp]; [discriminate|].
  destruct (raise_for_status resp) as [e|[]] eqn:Hst; [discriminate|].
  unfold response_json. destruct (body resp) as [data|] eqn:Hb;
    [|discriminate].
  intros [= <- <-]. exists resp, data. repeat split; try assumption.
  now destruct data.
Qed.

(** X8: what [fetch_dhcp_leases] returns is the [rows] member of an object
    body, and the empty list when the object has no such member; it returns
    nothing for a body that is not an object. *)
Theorem fetch_dhcp_leases_returns_rows (result : json)
    (log' : list request) :
  fetch_dhcp_leases net host key secret v log = (Ok result, log') ->
  exists resp members,
    net log (leases_request host key secret v) = Ok resp
    /\ raise_for_status resp = Ok tt
    /\ body resp = Some (JObj members)
    /\ result = match dict_get String.eqb "rows" members with
                | Some rows => rows
                | None => JArr []
                end.
Proof.
  unfold fetch_dhcp_leases, bind, send, lift, ret.
  fold (leases_request host key secret v).
  destruct (net log _) as [e|resp]; [discriminate|].
  destruct (raise_for_status resp) as [e|[]] eqn:Hst; [discriminate|].
  unfold response_json. destruct (body resp) as [data|] eqn:Hb;
    [|discriminate].
  destruct data as [| | | | |members]; try discriminate. simpl.
  intros [= <- <-]. exists resp, members. repeat split; assumption.
Qed.

(** X9: a token that [phpipam_authenticate] returns is truthy and is the
    [token] member of the object under [data] in the body: for no answer,
    of whatever shape, does the step return an empty or invented token. *)
Theorem phpipam_authenticate_returns_body_token (t : json)
    (log' : list request) :
  phpipam_authenticate net host app_id app_code scheme log = (Ok t, log') ->
  Py.truthy t = true
  /\ exists resp members fields,
       net log (auth_request host app_id app_code scheme) = Ok resp
       /\ raise_for_status resp = Ok tt
       /\ body resp = Some (JObj members)
       /\ dict_get String.eqb "data" members = Some (JObj fields)
       /\ dict_get String.eqb "token" fields = Some t.
Proof.
  unfold phpipam_authenticate, bind, send, lift, ret.
  fold (auth_request host app_id app_code scheme).
  destruct (net log _) as [e|resp]; [discriminate|].
  destruct (raise_for_status resp) as [e|[]] eqn:Hst; [discriminate|].
  unfold response_json. destruct (body resp) as [data|] eqn:Hb;
    [|discriminate].
  destruct data as [| | | | |members]; try discriminate. simpl.
  destruct (dict_get String.eqb "data" members) as [d|] eqn:Hd;
    [|discriminate].
  destruct d as [| | | | |fields]; try discriminate. simpl.
  destruct (dict_get String.eqb "token" fields) as [t'|] eqn:Ht;
    [|discriminate].
  destruct (Py.truthy t') eqn:Htruthy; [|discriminate].
  intros [= <- <-]. split; [exact Htruthy|].
  exists resp, members, fields. repeat split; assumption.
Qed.

End Helpers.

(** ** The merger on arbitrary input *)

Lemma get_stripped_tolerated (kvs : list (string * json)) (key : string) :
  field_tolerated (dict_get String.eqb key kvs) = true ->
  Py.get_stripped (JObj kvs) key = Ok (obs_field (JObj kvs) key).
Proof.
  unfold Py.get_stripped, obs_field; simpl.
  destruct (dict_get String.eqb key kvs) as [[|b|n|s|xs|ms]|]; simpl;
    try reflexivity.
  - destruct b; [discriminate | reflexivity].
  - destruct (n =? 0); [reflexivity | discriminate].
  - intros _. destruct s; reflexivity.
  - destruct xs; [reflexivity | discriminate].
  - destruct ms; [reflexivity | discriminate].
Qed.

Lemma get_stripped_not_tolerated (kvs : list (string * json))
    (key : string) :
  field_tolerated (dict_get String.eqb key kvs) = false ->
  Py.get_stripped (JObj kvs) key = Raise AttributeError.
Proof.
  unfold Py.get_stripped; simpl.
  destruct (dict_get String.eqb key kvs) as [[|b|n|s|xs|ms]|]; simpl;
    try discriminate.
  - destruct b; [reflexivity | discriminate].
  - destruct (n =? 0); [discriminate | reflexivity].
  - destruct xs; [discriminate | reflexivity].
  - destruct ms; [discriminate | reflexivity].
Qed.

Lemma get_stripped_cases (kvs : list (string * json)) (key : string) :
  (field_tolerated (dict_get String.eqb key kvs) = true
   /\ Py.get_stripped (JObj kvs) key = Ok (obs_field (JObj kvs) key))
  \/ (field_tolerated (dict_get String.eqb key kvs) = false
      /\ Py.get_stripped (JObj kvs) key = Raise AttributeError).
Proof.
  destruct (field_tolerated (dict_get String.eqb key kvs)) eqn:E.
  - left. split; [reflexivity | now apply get_stripped_tolerated].
  - right. split; [reflexivity | now apply get_stripped_not_tolerated].
Qed.

Lemma merge_arp_entry_cases (hosts : hosts_map) (e : json) :
  merge_arp_entry hosts e
  = if mergeable ["ip"; "mac"] e
    then Ok (insert_host hosts (arp_host e)) else Raise AttributeError.
Proof.
  destruct e as [| | | | |kvs]; try reflexivity.
  unfold merge_arp_entry, mergeable, forallb.
  destruct (get_stripped_cases kvs "ip") as [[-> ->]|[-> ->]];
    [|reflexivity].
  destruct (get_stripped_cases kvs "mac") as [[-> ->]|[-> ->]];
    [|reflexivity].
  rewrite !rbind_ok. unfold insert_host, arp_host; cbn [hi_ip andb].
  now destruct (PyStr.truthy _).
Qed.

Lemma merge_lease_cases (hosts : hosts_map) (e : json) :
  merge_lease hosts e
  = if mergeable ["address"; "mac"; "hostname"] e
    then Ok (insert_host hosts (lease_host e)) else Raise AttributeError.
Proof.
  destruct e as [| | | | |kvs]; try reflexivity.
  unfold merge_lease, mergeable, forallb.
  destruct (get_stripped_cases kvs "address") as [[-> ->]|[-> ->]];
    [|reflexivity].
  destruct (get_stripped_cases kvs "mac") as [[-> ->]|[-> ->]];
    [|reflexivity].
  destruct (get_stripped_cases kvs "hostname") as [[-> ->]|[-> ->]];
    [|reflexivity].
  rewrite !rbind_ok. unfold insert_host, lease_host; cbn [hi_ip andb].
  now destruct (PyStr.truthy _).
Qed.

(** A loop whose body either does its step or raises one fixed exception. *)
Lemma for_each_all_or_raise {A S} (body : S -> A -> result S)
    (ok : A -> bool) (f : S -> A -> S) (e : exn) :
  (forall s x, body s x = if ok x then Ok (f s x) else Raise e) ->
  forall xs s,
    for_each body xs s
    = match find (fun x => negb (ok x)) xs with
      | None => Ok (fold_left f xs s)
      | Some _ => Raise e
      end.
Proof.
  intros Hbody xs; induction xs as [|x xs IH]; intros s; simpl.
  - reflexivity.
  - rewrite Hbody. destruct (ok x); simpl; [apply IH | reflexivity].
Qed.

Lemma find_none_forallb {A} (p : A -> bool) (xs : list A) :
  match find (fun x => negb (p x)) xs with
  | None => forallb p xs = true
  | Some _ => forallb p xs = false
  end.
Proof.
  induction xs as [|x xs IH]; simpl; [reflexivity|].
  destruct (p x); simpl; [exact IH | reflexivity].
Qed.

(** X10: on two lists [merge_sources] returns a mapping exactly when every
    entry is an object whose fields read by the merger are missing, falsy or
    strings; in every other case it raises [AttributeError], and nothing
    else. *)
Theorem merge_sources_raises_iff (leases arp : list json) :
  (forallb (mergeable ["ip"; "mac"]) arp
   && forallb (mergeable ["address"; "mac"; "hostname"]) leases = true ->
   merge_sources (JArr leases) (JArr arp)
   = Ok (fold_left insert_host (map lease_host leases)
           (fold_left insert_host (map arp_host arp) [])))
  /\ (forallb (mergeable ["ip"; "mac"]) arp
      && forallb (mergeable ["address"; "mac"; "hostname"]) leases = false ->
      merge_sources (JArr leases) (JArr arp) = Raise AttributeError).
Proof.
  unfold merge_sources; simpl.
  rewrite (for_each_all_or_raise merge_arp_entry (mergeable ["ip"; "mac"])
             (fun d e => insert_host d (arp_host e)) AttributeError
             merge_arp_entry_cases).
  pose proof (find_none_forallb (mergeable ["ip"; "mac"]) arp) as Ha.
  destruct (find _ arp); rewrite Ha; simpl;
    [split; [discriminate | reflexivity]|].
  rewrite (for_each_all_or_raise merge_lease
             (mergeable ["address"; "mac"; "hostname"])
             (fun d e => insert_host d (lease_host e)) AttributeError
             merge_lease_cases).
  pose proof (find_none_forallb (mergeable ["address"; "mac"; "hostname"])
                leases) as Hl.
  destruct (find _ leases); rewrite Hl;
    [split; [discriminate | reflexivity]|].
  split; [|discriminate]. intros _. now rewrite !fold_left_map.
Qed.

Lemma get_stripped_trimmed (e : json) (key s : string) :
  Py.get_stripped e key = Ok s -> PyStr.strip s = s.
Proof.
  unfold Py.get_stripped. destruct (Py.get e key) as [ex|x]; [discriminate|].
  simpl. destruct (Py.or_empty x); try discriminate.
  simpl. intros [= <-]. apply strip_idem.
Qed.

Lemma truthy_nonblank (s : string) : PyStr.truthy s = true <-> s <> "".
Proof. destruct s; simpl; split; congruence. Qed.

Lemma canonical_set (d : hosts_map) (h : host_info) :
  canonical (hi_ip h, h) ->
  Forall canonical d ->
  Forall canonical (dict_set String.eqb (hi_ip h) h d).
Proof.
  intros Hh Hd. apply Forall_forall. intros [k v] Hin.
  apply str_set_in in Hin. destruct Hin as [Hin|[-> ->]]; [|exact Hh].
  rewrite Forall_forall in Hd. now apply Hd.
Qed.

(** X11: whatever JSON it is given, a mapping that [merge_sources] returns
    has one entry per key, and every entry is stored under its own ip, with
    an ip that is not blank and with ip, mac and hostname trimmed. *)
Theorem merge_sources_hosts_canonical (leases arp : json)
    (hosts : hosts_map) :
  merge_sources leases arp = Ok hosts ->
  NoDup (dict_keys hosts) /\ Forall canonical hosts.
Proof.
  intros H. split; [exact (proj1 (merge_sources_wf leases arp hosts H))|].
  unfold merge_sources in H.
  destruct (Py.iter arp) as [e|entries]; [discriminate|]. simpl in H.
  destruct (for_each merge_arp_entry entries []) as [e|hosts0] eqn:Harp;
    [discriminate|]. simpl in H.
  destruct (Py.iter leases) as [e|rows]; [discriminate|]. simpl in H.
  apply (for_each_invariant merge_lease (Forall canonical))
    with (xs := rows) (s := hosts0); [| |exact H].
  - intros d x d' Hd Hx. unfold merge_lease in Hx.
    destruct (Py.get_stripped x "address") as [e|ip] eqn:Hip; [discriminate|].
    destruct (Py.get_stripped x "mac") as [e|mac] eqn:Hmac; [discriminate|].
    destruct (Py.get_stripped x "hostname") as [e|hn] eqn:Hhn;
      [discriminate|].
    simpl in Hx. destruct (PyStr.truthy ip) eqn:Ht;
      inversion Hx; subst; [|exact Hd].
    apply (canonical_set d (HostInfo ip mac hn)); [|exact Hd].
    repeat split; simpl;
      eauto using get_stripped_trimmed. now apply truthy_nonblank.
  - apply (for_each_invariant merge_arp_entry (Forall canonical))
      with (xs := entries) (s := []); [| |exact Harp].
    + intros d x d' Hd Hx. unfold merge_arp_entry in Hx.
      destruct (Py.get_stripped x "ip") as [e|ip] eqn:Hip; [discriminate|].
      destruct (Py.get_stripped x "mac") as [e|mac] eqn:Hmac;
        [discriminate|].
      simpl in Hx. destruct (PyStr.truthy ip) eqn:Ht;
        inversion Hx; subst; [|exact Hd].
      apply (canonical_set d (HostInfo ip mac "")); [|exact Hd].
      repeat split; simpl;
        eauto using get_stripped_trimmed. now apply truthy_nonblank.
    + constructor.
Qed.

(** ** The inventory mapping *)

Lemma key_get_set (key : json) (ip : string) (v : json) (d : existing_map) :
  dict_get Py.key_eqb (JStr ip) (dict_set Py.key_eqb key v d)
  = if Py.key_eqb key (JStr ip) then Some v
    else dict_get Py.key_eqb (JStr ip) d.
Proof.
  apply dict_get_set.
  - intros k' H. destruct key, k'; simpl in *; try discriminate;
      try reflexivity.
    apply String.eqb_eq in H. now subst.
  - intros k' H H2. apply key_eqb_str in H2. subst key.
    destruct (Py.key_eqb k' (JStr ip)) eqn:E; [|reflexivity].
    congruence.
Qed.

Lemma find_snoc {A} (p : A -> bool) (xs : list A) (x : A) :
  find p (xs ++ [x])
  = match find p xs with
    | Some y => Some y
    | None => if p x then Some x else None
    end.
Proof.
  induction xs as [|y xs IH]; simpl; [reflexivity|].
  destruct (p y); [reflexivity | exact IH].
Qed.

(** One round of the comprehension, read under a str key that is not
    empty. *)
Lemma index_address_get (acc acc' : existing_map) (r : json) (ip : string) :
  PyStr.truthy ip = true ->
  index_address acc r = Ok acc' ->
  dict_get Py.key_eqb (JStr ip) acc'
  = if same_str (record_field r "ip") ip then Some r
    else dict_get Py.key_eqb (JStr ip) acc.
Proof.
  intros Hip. unfold index_address.
  destruct r as [| | | | |kvs]; try discriminate. simpl.
  destruct (dict_get String.eqb "ip" kvs) as [k|] eqn:Hk;
    [|now intros [= <-]].
  destruct (Py.truthy k) eqn:Ht.
  - rewrite rbind_ok. destruct (Py.hashable k) eqn:Hh; [|discriminate].
    intros [= <-]. rewrite key_get_set.
    destruct k; try reflexivity; discriminate.
  - intros [= <-]. destruct k; try reflexivity. simpl in *.
    destruct (String.eqb s ip) eqn:E; [|reflexivity].
    apply String.eqb_eq in E. congruence.
Qed.

Lemma index_all_get (records : list json) (ip : string) :
  PyStr.truthy ip = true ->
  forall acc ex,
    for_each index_address records acc = Ok ex ->
    dict_get Py.key_eqb (JStr ip) ex
    = match last_record ip records with
      | Some r => Some r
      | None => dict_get Py.key_eqb (JStr ip) acc
      end.
Proof.
  intros Hip. induction records as [|r rs IH]; intros acc ex H.
  - inversion H; subst. reflexivity.
  - cbn [for_each] in H.
    destruct (index_address acc r) as [e|acc1] eqn:Hr; [discriminate|].
    simpl in H. rewrite (IH acc1 ex H).
    unfold last_record. simpl rev. rewrite find_snoc.
    destruct (find _ (rev rs)); [reflexivity|].
    rewrite (index_address_get acc acc1 r ip Hip Hr).
    now destruct (same_str (record_field r "ip") ip).
Qed.

(** X12: in the mapping [get_subnet_addresses] builds from a list of
    records, the entry under a non-empty IP is the last record of the answer
    whose ip is that string, and there is no entry under the empty string
    or under an IP no record carries. *)
Theorem inventory_lookup_is_last_record (resp : response) (data : json)
    (records : list json) (existing : existing_map) :
  status_code resp <> 404 ->
  raise_for_status resp = Ok tt ->
  response_json resp = Ok data ->
  Py.get data "data" = Ok (Some (JArr records)) ->
  addresses_of_response resp = Ok existing ->
  forall ip,
    dict_get Py.key_eqb (JStr ip) existing
    = if PyStr.truthy ip then last_record ip records else None.
Proof.
  intros H404 Hstatus Hjson Hdata Hex ip.
  apply Z.eqb_neq in H404.
  unfold addresses_of_response in Hex.
  rewrite H404, Hstatus, Hjson, !rbind_ok, Hdata, rbind_ok in Hex.
  assert (Hall : for_each index_address records [] = Ok existing).
  { destruct records; exact Hex. }
  destruct (PyStr.truthy ip) eqn:Hip.
  - rewrite (index_all_get records ip Hip [] existing Hall).
    now destruct (last_record ip records).
  - apply dict_get_none_not_key. apply Forall_forall. intros [k r] Hin.
    simpl. destruct (Py.key_eqb k (JStr ip)) eqn:Hk; [|reflexivity].
    apply key_eqb_str in Hk. subst k. exfalso.
    destruct (index_address_keys records [] existing Hall (JStr ip))
      as [[]|(r' & _ & _ & Ht)].
    + unfold dict_keys. apply in_map_iff. now exists (JStr ip, r).
    + simpl in Ht. congruence.
Qed.

(** ** The reconciler at its edges *)

Section ReconcilerEdges.
Variable net : list request -> request -> result response.
Variables (cfg : config) (scheme : string) (token : json).
Variable existing : existing_map.

Lemma sync_hosts_app (xs ys : list (string * host_info)) :
  forall s log,
    sync_hosts net cfg scheme token existing (xs ++ ys) s log
    = bind (sync_hosts net cfg scheme token existing xs s)
           (sync_hosts net cfg scheme token existing ys) log.
Proof.
  induction xs as [|x xs IH]; intros s log.
  - reflexivity.
  - cbn [app sync_hosts]. unfold bind.
    destruct (sync_host net cfg scheme token existing s x log)
      as [[e|s'] log1]; [reflexivity|].
    rewrite IH. reflexivity.
Qed.

(** The round of a host whose decision is a write. *)
Lemma sync_host_write (s : summary) (item : string * host_info)
    (q : request) (log : list request) :
  spec_requests cfg scheme token (snd item) (spec_action existing item)
  = [q] ->
  sync_host net cfg scheme token existing s item log
  = match (let? response := net log q in raise_for_status response) with
    | inl e => (Raise e, log ++ [q])
    | inr _ => (Ok (bump s (spec_action existing item)), log ++ [q])
    end.
Proof.
  destruct item as [ip h]. unfold sync_host, spec_action; simpl fst; simpl snd.
  destruct (dict_get Py.key_eqb (JStr ip) existing) as [current|].
  - destruct current as [| | | | |kvs]; try discriminate.
    unfold bind at 1, lift at 1. rewrite differs_spec.
    destruct (same_str _ (hi_mac h) && same_str _ (hi_hostname h));
      [discriminate|].
    simpl. destruct (dict_get String.eqb "id" kvs) as [aid|];
      [|discriminate].
    intros [= <-].
    unfold update_address, bind, send, lift, ret; simpl.
    fold (update_request (phpipam_host cfg) (phpipam_app_id cfg) aid h
                         token scheme).
    destruct (net log _) as [e|resp]; [reflexivity|]. simpl.
    destruct (raise_for_status resp); reflexivity.
  - simpl. intros [= <-].
    unfold create_address, bind, send, lift, ret; simpl.
    fold (create_request (phpipam_host cfg) (phpipam_app_id cfg)
                         (phpipam_subnet_id cfg) h token scheme).
    destruct (net log _) as [e|resp]; [reflexivity|]. simpl.
    destruct (raise_for_status resp); reflexivity.
Qed.

(** X13: when the write for one host fails, because the session raises or
    the status is an error, the pass raises that exception right after the
    request: the counts gathered so far are lost and the hosts after it are
    not contacted. *)
Theorem sync_hosts_aborts_on_failed_write
    (done rest : list (string * host_info)) (item : string * host_info)
    (s s1 : summary) (log log1 : list request) (q : request) (e : exn) :
  sync_hosts net cfg scheme token existing done s log = (Ok s1, log1) ->
  spec_requests cfg scheme token (snd item) (spec_action existing item)
  = [q] ->
  (let? response := net log1 q in raise_for_status response) = Raise e ->
  sync_hosts net cfg scheme token existing (done ++ item :: rest) s log
  = (Raise e, log1 ++ [q]).
Proof.
  intros Hdone Hq Hfail. rewrite sync_hosts_app. unfold bind at 1.
  rewrite Hdone; unfold Ok at 1; cbv beta iota.
  cbn [sync_hosts]. unfold bind at 1.
  rewrite (sync_host_write s1 item q log1 Hq), Hfail. reflexivity.
Qed.

(** X14: a record whose mac is missing or null is never left alone: the
    round sends the update and counts it, whatever the host's mac, the
    empty one included. *)
Theorem sync_host_updates_record_without_mac
    (s : summary) (ip : string) (h : host_info)
    (members : list (string * json)) (address_id : json)
    (log : list request) :
  accepts_writes net ->
  dict_get Py.key_eqb (JStr ip) existing = Some (JObj members) ->
  dict_get String.eqb "mac" members = None
  \/ dict_get String.eqb "mac" members = Some JNull ->
  dict_get String.eqb "id" members = Some address_id ->
  sync_host net cfg scheme token existing s (ip, h) log
  = (Ok (Summary (created s) (updated s + 1) (skipped s)),
     log ++ [update_request (phpipam_host cfg) (phpipam_app_id cfg)
                            address_id h token scheme]).
Proof.
  intros Hnet Hget Hmac Hid.
  assert (Hq : spec_requests cfg scheme token (snd (ip, h))
                 (spec_action existing (ip, h))
               = [update_request (phpipam_host cfg) (phpipam_app_id cfg)
                                 address_id h token scheme]).
  { unfold spec_action; simpl. rewrite Hget; simpl.
    destruct Hmac as [-> | ->]; simpl; now rewrite Hid. }
  rewrite (sync_host_write s (ip, h) _ log Hq).
  destruct (Hnet log (update_request (phpipam_host cfg) (phpipam_app_id cfg)
                        address_id h token scheme) eq_refl)
    as (resp & -> & Hst).
  rewrite rbind_ok, Hst. unfold spec_action; simpl. rewrite Hget; simpl.
  destruct Hmac as [-> | ->]; reflexivity.
Qed.

(** X15: a record that has to be updated but carries no [id] makes the
    round raise [KeyError] for that key before any request is sent. *)
Theorem sync_host_record_without_id (s : summary) (ip : string)
    (h : host_info) (members : list (string * json)) (log : list request) :
  dict_get Py.key_eqb (JStr ip) existing = Some (JObj members) ->
  differs (JObj members) h = Ok true ->
  dict_get String.eqb "id" members = None ->
  sync_host net cfg scheme token existing s (ip, h) log
  = (Raise (KeyError "id"), log).
Proof.
  intros Hget Hdiff Hid. unfold sync_host. rewrite Hget.
  unfold bind at 1, lift at 1. rewrite Hdiff; unfold Ok at 1; cbv beta iota.
  unfold bind, lift; simpl. now rewrite Hid.
Qed.

Lemma sync_host_sends_at_most_one (s : summary)
    (item : string * host_info) (log : list request) :
  exists sent,
    snd (sync_host net cfg scheme token existing s item log) = log ++ sent
    /\ (List.length sent <= 1)%nat
    /\ Forall (fun q => is_write q = true) sent.
Proof.
  destruct (sync_host_sent net cfg scheme token existing s item log)
    as (sent & Hlog & Hincl).
  destruct item as [ip h]. unfold sync_host in *.
  destruct (dict_get Py.key_eqb (JStr ip) existing) as [current|].
  - destruct current as [| | | | |kvs];
      try (exists []; split; [simpl; now rewrite app_nil_r|];
           split; [simpl; lia | constructor]).
    unfold bind at 1, lift at 1. rewrite differs_spec.
    destruct (same_str _ (hi_mac h) && same_str _ (hi_hostname h)); simpl.
    + exists []. split; [now rewrite app_nil_r|].
      split; [simpl; lia | constructor].
    + unfold bind at 1, lift at 1; simpl.
      destruct (dict_get String.eqb "id" kvs) as [aid|].
      * exists [update_request (phpipam_host cfg) (phpipam_app_id cfg)
                               aid h token scheme].
        split; [|split; [simpl; lia | now repeat constructor]].
        unfold update_address, bind, send, lift, ret; simpl.
        match goal with
        | |- context [net log ?r] => destruct (net log r) as [e|resp]
        end; [reflexivity|].
        destruct (raise_for_status resp); reflexivity.
      * exists []. split; [simpl; now rewrite app_nil_r|].
        split; [simpl; lia | constructor].
  - exists [create_request (phpipam_host cfg) (phpipam_app_id cfg)
                           (phpipam_subnet_id cfg) h token scheme].
    split; [|split; [simpl; lia | now repeat constructor]].
    unfold create_address, bind, send, lift, ret; simpl.
    match goal with
    | |- context [net log ?r] => destruct (net log r) as [e|resp]
    end; [reflexivity|].
    destruct (raise_for_status resp); reflexivity.
Qed.

(** X16: the pass sends nothing but address writes, and at most one for
    each host, whether it completes or raises. *)
Theorem sync_hosts_sends_at_most_one_write_per_host
    (items : list (string * host_info)) (s : summary)
    (log : list request) :
  exists sent,
    snd (sync_hosts net cfg scheme token existing items s log) = log ++ sent
    /\ (List.length sent <= List.length items)%nat
    /\ Forall (fun q => is_write q = true) sent.
Proof.
  revert s log. induction items as [|item rest IH]; intros s log.
  - exists []. split; [simpl; now rewrite app_nil_r|].
    split; [simpl; lia | constructor].
  - cbn [sync_hosts]. unfold bind.
    destruct (sync_host_sends_at_most_one s item log)
      as (sent1 & Hlog1 & Hlen1 & Hw1).
    destruct (sync_host net cfg scheme token existing s item log)
      as [[e|s'] log1]; simpl in Hlog1; subst log1.
    + exists sent1. split; [reflexivity|].
      split; [simpl; lia | exact Hw1].
    + destruct (IH s' (log ++ sent1)) as (sent2 & Hlog2 & Hlen2 & Hw2).
      exists (sent1 ++ sent2). split; [now rewrite Hlog2, app_assoc|].
      split; [rewrite length_app; simpl; lia | now apply Forall_app].
Qed.

End ReconcilerEdges.

(** ** A whole run *)

Section WholeRun.
Variable net : list request -> request -> result response.
Variable cfg : config.








Lemma sync_hosts_total (token : json) (existing : existing_map)
    (items : list (string * host_info)) :
  forall (s0 s1 : summary) (l0 l1 : list request),
    sync_hosts net cfg (cfg_scheme cfg) token existing items s0 l0
    = (Ok s1, l1) ->
    created s0 <= created s1 /\ updated s0 <= updated s1
    /\ skipped s0 <= skipped s1
    /\ created s1 + updated s1 + skipped s1
       = created s0 + updated s0 + skipped s0
         + Z.of_nat (List.length items).
Proof.
  induction items as [|item rest IH]; intros s0 s1 l0 l1 H.
  - inversion H; subst; simpl; lia.
  - cbn [sync_hosts] in H. apply bind_ok_inv in H.
    destruct H as (sm & lm & Hhost & Hrest).
    apply sync_host_counts in Hhost. apply IH in Hrest.
    cbn [List.length]. lia.
Qed.

(** X18: the summary a run returns counts the hosts merged from what the
    two firewall requests of that run returned: the three counts are not
    negative and add up to the size of that mapping. *)
Theorem sync_summary_counts_merged_hosts (log log' : list request)
    (s : summary) :
  sync net cfg log = (Ok s, log') ->
  exists leases arp hosts log1 log2,
    fetch_dhcp_leases net (opnsense_host cfg) (opnsense_key cfg)
                      (opnsense_secret cfg) (cfg_verify cfg) log
    = (Ok leases, log1)
    /\ fetch_arp_table net (opnsense_host cfg) (opnsense_key cfg)
                       (opnsense_secret cfg) (cfg_verify cfg) log1
       = (Ok arp, log2)
    /\ merge_sources leases arp = Ok hosts
    /\ 0 <= created s /\ 0 <= updated s /\ 0 <= skipped s
    /\ created s + updated s + skipped s
       = Z.of_nat (List.length hosts).
Proof.
  unfold sync. fold (cfg_verify cfg). fold (cfg_scheme cfg). intros H.
  apply bind_ok_inv in H. destruct H as (leases & log1 & H1 & H).
  apply bind_ok_inv in H. destruct H as (arp & log2 & H2 & H).
  apply bind_ok_inv in H. destruct H as (hosts & log2' & Hm & H).
  apply lift_ok_inv in Hm. destruct Hm as [Hm ->].
  apply bind_ok_inv in H. destruct H as (token & log3 & _ & H).
  apply bind_ok_inv in H. destruct H as (existing & log4 & _ & H).
  apply sync_hosts_total in H. simpl in H.
  exists leases, arp, hosts, log1, log2.
  repeat split; try assumption; lia.
Qed.

End WholeRun.

(** ** The further properties at work on the sample data *)

Lemma load_config_fields_filled_witness :
  load_config (environment_of required_vars)
  = Ok (Config "fw.example.com" "key123" "secret123" (Some (VerifyBool true))
               "ipam.example.com" (Some "https") "sync_agent"
               "app_code_abc" "3")
  /\ trimmed_nonblank "fw.example.com"
  /\ trimmed_nonblank "key123"
  /\ trimmed_nonblank "secret123"
  /\ trimmed_nonblank "ipam.example.com"
  /\ trimmed_nonblank "sync_agent"
  /\ trimmed_nonblank "app_code_abc"
  /\ trimmed_nonblank "3"
  /\ (Some "https" = Some "http" \/ Some "https" = Some "https")
  /\ Some (VerifyBool true) <> None.
Proof.
  split; [reflexivity|].
  exact (load_config_fields_filled (environment_of required_vars) _ eq_refl).
Defined.

Lemma load_config_verify_ssl_witness :
  load_config (environment_of (("OPNSENSE_VERIFY_SSL", " No ")
                               :: required_vars))
  = Ok (Config "fw.example.com" "key123" "secret123" (Some (VerifyBool false))
               "ipam.example.com" (Some "https") "sync_agent"
               "app_code_abc" "3")
  /\ (Some (VerifyBool false) = Some (VerifyBool false)
      <-> str_in (verify_raw (environment_of
                                (("OPNSENSE_VERIFY_SSL", " No ")
                                 :: required_vars)))
                 ["false"; "0"; "no"] = true).
Proof.
  split; [reflexivity|].
  exact (proj1 (load_config_verify_ssl
                  (environment_of (("OPNSENSE_VERIFY_SSL", " No ")
                                   :: required_vars)) _ eq_refl)).
Defined.

Lemma main_without_config_sends_nothing_witness :
  load_config env_ftp_scheme = Raise bad_scheme
  /\ proc_requests (main net_ok env_ftp_scheme) = []
  /\ proc_end (main net_ok env_ftp_scheme) <> Exit 0
  /\ (bad_scheme = bad_scheme
      \/ exists name, In name required_names /\ bad_scheme = not_set name).
Proof.
  split; [reflexivity|].
  exact (main_without_config_sends_nothing net_ok env_ftp_scheme bad_scheme
           eq_refl).
Defined.

Lemma missing_required_exits_witness :
  scheme_allowed env_missing_key = true
  /\ In "OPNSENSE_KEY" required_names
  /\ PyStr.strip (environ_get env_missing_key "OPNSENSE_KEY" "") = ""
  /\ exists name',
       In name' required_names
       /\ PyStr.strip (environ_get env_missing_key name' "") = ""
       /\ main net_ok env_missing_key
          = Process (Exit 1)
                    [("Required environment variable '" ++ name'
                      ++ "' is not set.")%string] [].
Proof.
  assert (Hin : In "OPNSENSE_KEY" required_names) by (simpl; tauto).
  split; [reflexivity|]. split; [exact Hin|]. split; [reflexivity|].
  exact (missing_required_exits net_ok env_missing_key "OPNSENSE_KEY"
           eq_refl Hin eq_refl).
Defined.

Lemma net_error_answers_500 :
  forall q, net_error [] q = Ok (Response 500 None).
Proof. reflexivity. Defined.

Lemma helpers_raise_on_error_status_witness :
  (forall q, net_error [] q = Ok (Response 500 None))
  /\ is_error_status 500 = true
  /\ fst (fetch_dhcp_leases net_error "ipam.example.com" "key" "secret"
                            (VerifyBool true) [])
     = Raise (HTTPError 500)
  /\ fst (create_address net_error "ipam.example.com" "sync_agent" "3"
                         sample_host sample_token "https" [])
     = Raise (HTTPError 500).
Proof.
  split; [exact net_error_answers_500|]. split; [reflexivity|].
  split;
    [exact (proj1 (helpers_raise_on_error_status net_error
                     "ipam.example.com" "key" "secret" "sync_agent" "code"
                     "3" "https" (VerifyBool true) sample_token (JStr "5")
                     sample_host [] (Response 500 None)
                     net_error_answers_500 eq_refl))
    |exact (proj1 (proj2 (proj2 (proj2
              (helpers_raise_on_error_status net_error
                 "ipam.example.com" "key" "secret" "sync_agent" "code"
                 "3" "https" (VerifyBool true) sample_token (JStr "5")
                 sample_host [] (Response 500 None)
                 net_error_answers_500 eq_refl)))))].
Defined.

Lemma fetch_arp_table_returns_list_witness :
  fetch_arp_table net_ok "fw.example.com" "key" "secret" (VerifyBool true) []
  = (Ok (JArr []),
     [arp_request "fw.example.com" "key" "secret" (VerifyBool true)])
  /\ exists resp data,
       net_ok [] (arp_request "fw.example.com" "key" "secret"
                              (VerifyBool true)) = Ok resp
       /\ raise_for_status resp = Ok tt
       /\ body resp = Some data
       /\ JArr [] = JArr (match data with JArr xs => xs | _ => [] end).
Proof.
  split; [reflexivity|].
  exact (fetch_arp_table_returns_list net_ok "fw.example.com" "key" "secret"
           (VerifyBool true) [] (JArr []) _ eq_refl).
Defined.

Lemma fetch_dhcp_leases_returns_rows_witness :
  fetch_dhcp_leases net_sample "fw.example.com" "key" "secret"
                    (VerifyBool true) []
  = (Ok (JArr sample_leases),
     [leases_request "fw.example.com" "key" "secret" (VerifyBool true)])
  /\ exists resp members,
       net_sample [] (leases_request "fw.example.com" "key" "secret"
                                     (VerifyBool true)) = Ok resp
       /\ raise_for_status resp = Ok tt
       /\ body resp = Some (JObj members)
       /\ JArr sample_leases
          = match dict_get String.eqb "rows" members with
            | Some rows => rows
            | None => JArr []
            end.
Proof.
  split; [reflexivity|].
  exact (fetch_dhcp_leases_returns_rows net_sample "fw.example.com" "key"
           "secret" (VerifyBool true) [] (JArr sample_leases) _ eq_refl).
Defined.

Lemma phpipam_authenticate_returns_body_token_witness :
  phpipam_authenticate net_sample "ipam.example.com" "sync_agent" "code"
                       "https" []
  = (Ok sample_token,
     [auth_request "ipam.example.com" "sync_agent" "code" "https"])
  /\ Py.truthy sample_token = true
  /\ exists resp members fields,
       net_sample [] (auth_request "ipam.example.com" "sync_agent" "code"
                                   "https") = Ok resp
       /\ raise_for_status resp = Ok tt
       /\ body resp = Some (JObj members)
       /\ dict_get String.eqb "data" members = Some (JObj fields)
       /\ dict_get String.eqb "token" fields = Some sample_token.
Proof.
  split; [reflexivity|].
  exact (phpipam_authenticate_returns_body_token net_sample
           "ipam.example.com" "sync_agent" "code" "https" [] sample_token _
           eq_refl).
Defined.

Lemma phpipam_authenticate_object_data_witness :
  net_sample [] (auth_request "ipam.example.com" "sync_agent" "code" "https")
  = Ok (Response 200 (Some (JObj [("data", JObj [("token", sample_token)])])))
  /\ phpipam_authenticate net_sample "ipam.example.com" "sync_agent" "code"
                          "https" []
     = (Ok sample_token,
        [] ++ [auth_request "ipam.example.com" "sync_agent" "code" "https"]).
Proof.
  split; [reflexivity|].
  exact (phpipam_authenticate_object_data net_sample "ipam.example.com"
           "sync_agent" "code" "https" []
           (Response 200
              (Some (JObj [("data", JObj [("token", sample_token)])])))
           [("data", JObj [("token", sample_token)])]
           [("token", sample_token)]
           eq_refl eq_refl eq_refl (or_introl eq_refl)).
Defined.

Lemma merge_sources_hosts_canonical_witness :
  merge_sources (JArr sample_leases) (JArr sample_arp) = Ok sample_hosts
  /\ NoDup (dict_keys sample_hosts) /\ Forall canonical sample_hosts.
Proof.
  split; [reflexivity|].
  exact (merge_sources_hosts_canonical (JArr sample_leases) (JArr sample_arp)
           sample_hosts eq_refl).
Defined.

Lemma sample_inventory_not_404 :
  status_code (Response 200 (Some sample_inventory)) <> 404.
Proof. simpl. lia. Defined.

Lemma inventory_lookup_is_last_record_witness :
  addresses_of_response (Response 200 (Some sample_inventory))
  = Ok [(JStr "10.0.0.2",
         sample_record "6" "10.0.0.2" "de:ad:be:ef:00:01" "")]
  /\ dict_get Py.key_eqb (JStr "10.0.0.2")
              [(JStr "10.0.0.2",
                sample_record "6" "10.0.0.2" "de:ad:be:ef:00:01" "")]
     = if PyStr.truthy "10.0.0.2"
       then last_record "10.0.0.2"
              [JObj [("id", JStr "8"); ("ip", JNull); ("mac", JStr "ee:ee")];
               sample_record "6" "10.0.0.2" "de:ad:be:ef:00:01" ""]
       else None.
Proof.
  split; [reflexivity|].
  exact (inventory_lookup_is_last_record
           (Response 200 (Some sample_inventory)) sample_inventory _ _
           sample_inventory_not_404 eq_refl eq_refl eq_refl eq_refl
           "10.0.0.2").
Defined.

Lemma sync_hosts_aborts_on_failed_write_witness :
  sync_hosts net_error sample_config "https" sample_token sample_existing
             [] (Summary 0 0 0) []
  = (Ok (Summary 0 0 0), [])
  /\ spec_requests sample_config "https" sample_token
                   (snd ("10.0.0.1", sample_host))
                   (spec_action sample_existing ("10.0.0.1", sample_host))
     = [create_request "ipam.example.com" "sync_agent" "3" sample_host
                       sample_token "https"]
  /\ sync_hosts net_error sample_config "https" sample_token sample_existing
                ([] ++ ("10.0.0.1", sample_host) :: sample_hosts)
                (Summary 0 0 0) []
     = (Raise (HTTPError 500),
        [] ++ [create_request "ipam.example.com" "sync_agent" "3"
                              sample_host sample_token "https"]).
Proof.
  split; [reflexivity|]. split; [reflexivity|].
  exact (sync_hosts_aborts_on_failed_write net_error sample_config "https"
           sample_token sample_existing [] sample_hosts
           ("10.0.0.1", sample_host) (Summary 0 0 0) (Summary 0 0 0) [] []
           _ (HTTPError 500) eq_refl eq_refl eq_refl).
Defined.

Lemma sync_host_updates_record_without_mac_witness :
  accepts_writes net_ok
  /\ sync_host net_ok sample_config "https" sample_token sample_no_mac
               (Summary 0 0 0)
               ("10.0.0.1", HostInfo "10.0.0.1" "" "myhost") []
     = (Ok (Summary 0 1 0),
        [] ++ [update_request "ipam.example.com" "sync_agent" (JStr "9")
                              (HostInfo "10.0.0.1" "" "myhost")
                              sample_token "https"]).
Proof.
  split; [exact net_ok_accepts_writes|].
  exact (sync_host_updates_record_without_mac net_ok sample_config "https"
           sample_token sample_no_mac (Summary 0 0 0) "10.0.0.1"
           (HostInfo "10.0.0.1" "" "myhost")
           [("id", JStr "9"); ("ip", JStr "10.0.0.1");
            ("hostname", JStr "myhost")]
           (JStr "9") [] net_ok_accepts_writes eq_refl (or_introl eq_refl)
           eq_refl).
Defined.

Lemma sync_host_record_without_id_witness :
  differs (JObj [("ip", JStr "10.0.0.1"); ("mac", JStr "00:00:00:00:00:00");
                 ("hostname", JStr "myhost")]) sample_host
  = Ok true
  /\ sync_host net_ok sample_config "https" sample_token sample_no_id
               (Summary 0 0 0) ("10.0.0.1", sample_host) []
     = (Raise (KeyError "id"), []).
Proof.
  split; [reflexivity|].
  exact (sync_host_record_without_id net_ok sample_config "https"
           sample_token sample_no_id (Summary 0 0 0) "10.0.0.1" sample_host
           [("ip", JStr "10.0.0.1"); ("mac", JStr "00:00:00:00:00:00");
            ("hostname", JStr "myhost")]
           [] eq_refl eq_refl eq_refl).
Defined.

Lemma sync_summary_counts_merged_hosts_witness :
  fst (sync net_sample sample_config []) = Ok (Summary 1 1 1)
  /\ exists leases arp hosts log1 log2,
       fetch_dhcp_leases net_sample (opnsense_host sample_config)
                         (opnsense_key sample_config)
                         (opnsense_secret sample_config)
                         (cfg_verify sample_config) []
       = (Ok leases, log1)
       /\ fetch_arp_table net_sample (opnsense_host sample_config)
                          (opnsense_key sample_config)
                          (opnsense_secret sample_config)
                          (cfg_verify sample_config) log1
          = (Ok arp, log2)
       /\ merge_sources leases arp = Ok hosts
       /\ 0 <= created (Summary 1 1 1) /\ 0 <= updated (Summary 1 1 1)
       /\ 0 <= skipped (Summary 1 1 1)
       /\ created (Summary 1 1 1) + updated (Summary 1 1 1)
          + skipped (Summary 1 1 1)
          = Z.of_nat (List.length hosts).
Proof.
  split; [reflexivity|].
  exact (sync_summary_counts_merged_hosts net_sample sample_config []
           (snd (sync net_sample sample_config [])) (Summary 1 1 1) eq_refl).
Defined.
